(** * SnowRail MCP adapter: a shallow embedding of [src/snowrail-mcp.ts]

    The adapter exposes the REST endpoints of a payments backend as tools of
    an agent protocol.  This file embeds the parts of the script that carry
    behaviour: the mode gate, the environment resolver [resolveBaseUrl], the
    request bridge [snowrailFetch], the registration script and the
    handlers of the nineteen tools, on arguments their schemas have
    validated.

    Conventions of the embedding.
    - A JavaScript string is a [string] holding the UTF-8 form of the text.
      The script itself only tests strings for emptiness and equality and
      concatenates them.
    - A JavaScript number is a binary64 [float]; [*] is the kernel's IEEE
      multiplication, the one the script's [amount * 100] performs.
    - [undefined] is [None] for an optional string and [JUndefined] for a
      value of type [unknown].
    - A lookup in the table of base URLs reaches [Object.prototype] when
      the name is no own property; the function or object found there is
      recorded by the text it becomes in the request URL.
    - A thrown exception or a rejected promise is [Throw]; [await] is the
      bind of the monad [IO], which also records the requests handed to the
      platform's [fetch]. *)

From Stdlib Require Import ZArith String Ascii List Floats Lia.
From stdpp Require Import base option list strings gmap.

Set Warnings "-register-all,-inexact-float".

Local Open Scope string_scope.
Local Open Scope Z_scope.

(** ** Values *)

(** The values the script builds and receives: what [JSON.parse] can return,
    and [undefined], which object literals of the script may hold in a field
    (an optional argument that was not supplied). *)
Inductive JsValue : Type :=
  | JUndefined
  | JNull
  | JBool (b : bool)
  | JNumber (x : float)
  | JString (s : string)
  | JArray (items : list JsValue)
  | JObject (props : list (string * JsValue)).

(** Own properties of an object, in enumeration order. *)
Definition Props (V : Type) : Type := list (string * V).

(** [o[k]] on own properties. *)
Fixpoint prop_get {V} (k : string) (o : Props V) : option V :=
  match o with
  | [] => None
  | (k', v) :: o' => if String.eqb k k' then Some v else prop_get k o'
  end.

(** Character codes. *)
Definition code (c : ascii) : Z := Z.of_N (N_of_ascii c).
Definition char (z : Z) : ascii := ascii_of_N (Z.to_N z).
Definition is_code (c : ascii) (z : Z) : bool := code c =? z.

Definition digit_of (c : ascii) : option Z :=
  let n := code c in
  if (48 <=? n) && (n <=? 57) then Some (n - 48) else None.

(** A maximal run of decimal digits: its value, its length, the rest. *)
Fixpoint read_digits (s : string) (acc count : Z) : Z * Z * string :=
  match s with
  | String c r =>
      match digit_of c with
      | Some d => read_digits r (10 * acc + d) (count + 1)
      | None => (acc, count, s)
      end
  | EmptyString => (acc, count, s)
  end.

(** A property key that is an array index: the canonical decimal form of an
    integer below 2^32 - 1.  Such keys are enumerated first, in ascending
    order, whatever the order of creation. *)
Definition array_index (k : string) : option Z :=
  match k with
  | EmptyString => None
  | String c r =>
      if is_code c 48 && negb (String.eqb r "") then None
      else
        match read_digits k 0 0 with
        | (n, _, EmptyString) => if n <? 2 ^ 32 - 1 then Some n else None
        | _ => None
        end
  end.

(** [k] is enumerated before [k'] wherever the two are created. *)
Definition index_before (k k' : string) : bool :=
  match array_index k, array_index k' with
  | Some i, Some j => i <? j
  | Some _, None => true
  | None, _ => false
  end.

(** [o[k] = v]: an existing property keeps its place; a new one goes last,
    or to its place among the array indices. *)
Fixpoint prop_set {V} (k : string) (v : V) (o : Props V) : Props V :=
  match o with
  | [] => [(k, v)]
  | (k', v') :: o' =>
      if String.eqb k k' then (k, v) :: o'
      else if index_before k k' then (k, v) :: o
      else (k', v') :: prop_set k v o'
  end.

(** [{ ...o, ...extra }]: the properties of [extra] are assigned in order. *)
Definition spread {V} (o extra : Props V) : Props V :=
  fold_left (fun acc kv => prop_set (fst kv) (snd kv) acc) extra o.

(** Field access on a value; [undefined] when the field is missing. *)
Definition field (k : string) (v : JsValue) : JsValue :=
  match v with
  | JObject props => default JUndefined (prop_get k props)
  | _ => JUndefined
  end.

(** Truthiness of a string and of an optional string: only [undefined] and
    the empty string are falsy. *)
Definition truthy (s : string) : bool := negb (String.eqb s "").

(** An optional string used as a condition: the string when it is truthy. *)
Definition if_truthy (s : option string) : option string :=
  match s with
  | Some s => if truthy s then Some s else None
  | None => None
  end.

(** [a ?? b]. *)
Definition nullish {A} (a b : option A) : option A :=
  match a with
  | Some _ => a
  | None => b
  end.

(** ** Exceptions and the monad of the script *)

Inductive Exn : Type :=
  | Error (message : string)
  | SyntaxError (message : string)
  | TypeError (message : string).

Inductive Result (A : Type) : Type :=
  | Ok (a : A)
  | Throw (e : Exn).
Arguments Ok {A} a.
Arguments Throw {A} e.

(** [try { x = e } catch { x = h }]. *)
Definition try_catch {A} (e : Result A) (h : A) : A :=
  match e with
  | Ok a => a
  | Throw _ => h
  end.

(** The argument of [fetch]: [RequestInit] with the fields the script sets. *)
Record RequestInit : Type := mkInit {
  init_method : string;
  init_headers : Props string;
  init_body : option string
}.

(** What the script reads of a [Response]: [res.status], and [res.text()],
    which rejects when the connection fails while the body is read. *)
Record Response : Type := mkResponse {
  res_status : Z;
  res_text : Result string
}.

(** A request handed to [fetch]. *)
Definition Request : Type := (string * RequestInit)%type.

(** A computation that may throw and that performs requests: it extends the
    list of the requests performed so far. *)
Definition IO (A : Type) : Type := list Request -> Result A * list Request.

#[global] Instance IO_ret : MRet IO := fun A a sent => (Ok a, sent).

#[global] Instance IO_bind : MBind IO := fun A B k m sent =>
  match m sent with
  | (Ok a, sent') => k a sent'
  | (Throw e, sent') => (Throw e, sent')
  end.

#[global] Instance Result_ret : MRet Result := fun A a => Ok a.

#[global] Instance Result_bind : MBind Result := fun A B k r =>
  match r with
  | Ok a => k a
  | Throw e => Throw e
  end.

Definition lift {A} (r : Result A) : IO A := fun sent => (r, sent).

(** The outcome of a computation and the requests it performed, started
    with nothing sent. *)
Definition outcome {A} (m : IO A) : Result A := fst (m []).
Definition performed {A} (m : IO A) : list Request := snd (m []).

(** ** Process configuration *)

(** The three variables the script reads from [process.env], once. *)
Record ProcessEnv : Type := mkEnv {
  SNOWRAIL_MCP_MODE : option string;
  SNOWRAIL_ENV : option string;
  SNOWRAIL_API_BASE : option string
}.

Definition MCP_MODE (env : ProcessEnv) : string :=
  default "core" (SNOWRAIL_MCP_MODE env).

Definition isAdvanced (env : ProcessEnv) : bool :=
  String.eqb (MCP_MODE env) "advanced" || String.eqb (MCP_MODE env) "internal".

Definition isInternal (env : ProcessEnv) : bool :=
  String.eqb (MCP_MODE env) "internal".

(** ** Environment resolver *)

(** The table of base URLs, with its three own properties. *)
Definition BASE_URLS : Props string :=
  [ ("development", "http://localhost:4000");
    ("staging", "https://staging-api.snowrail.xyz");
    ("production", "https://api.snowrail.xyz") ].

(** [BASE_URLS] is an object literal, so a lookup that finds no own
    property goes on to [Object.prototype], which has eleven functions and
    the accessor [__proto__], answering with the prototype itself.  The
    script tests the value it finds against null and for truth and puts it
    in the template literal of the request URL, nothing else; such a value
    is recorded here by the text it becomes in that literal (a built-in
    function as Node.js prints it). *)
Definition native (name : string) : string :=
  "function " ++ name ++ "() { [native code] }".

Definition Object_prototype : Props string :=
  [ ("constructor", native "Object");
    ("__defineGetter__", native "__defineGetter__");
    ("__defineSetter__", native "__defineSetter__");
    ("hasOwnProperty", native "hasOwnProperty");
    ("__lookupGetter__", native "__lookupGetter__");
    ("__lookupSetter__", native "__lookupSetter__");
    ("isPrototypeOf", native "isPrototypeOf");
    ("propertyIsEnumerable", native "propertyIsEnumerable");
    ("toString", native "toString");
    ("valueOf", native "valueOf");
    ("__proto__", "[object Object]");
    ("toLocaleString", native "toLocaleString") ].

(** [BASE_URLS[name]]: the own property, else the inherited one, else
    undefined. *)
Definition BASE_URLS_at (name : string) : option string :=
  nullish (prop_get name BASE_URLS) (prop_get name Object_prototype).

(** The names for which the lookup finds a value. *)
Definition BASE_URLS_names : list string :=
  (map fst BASE_URLS ++ map fst Object_prototype)%list.

Definition DEFAULT_ENV (env : ProcessEnv) : string :=
  default "staging" (SNOWRAIL_ENV env).

Definition DEFAULT_BASE_URL (env : ProcessEnv) : option string :=
  nullish (SNOWRAIL_API_BASE env) (BASE_URLS_at (DEFAULT_ENV env)).

Definition resolveBaseUrl (penv : ProcessEnv)
    (environment baseUrlOverride : option string) : Result string :=
  match if_truthy baseUrlOverride with
  | Some override => Ok override
  | None =>
      let env := default (DEFAULT_ENV penv) environment in
      let url := nullish (BASE_URLS_at env) (DEFAULT_BASE_URL penv) in
      match if_truthy url with
      | None =>
          Throw (Error "SnowRail API base URL not configured. Set SNOWRAIL_ENV or SNOWRAIL_API_BASE.")
      | Some url => Ok url
      end
  end.

(** ** Numbers *)

(** The number of an integer (exact below 2^53, which covers every integer
    the script converts). *)
Definition Z2float (z : Z) : float :=
  SF2Prim (binary_normalize prec emax z 0 false).

(** [Math.round]: the integral number closest to [x], the one toward
    +infinity on a tie; [-0] for [-0.5 <= x < 0]; zeros, infinities and NaN
    are returned as they are. *)
Definition Math_round (x : float) : float :=
  match Prim2SF x with
  | S754_finite s m e =>
      if 0 <=? e then x
      else
        let n := cond_Zopp s (Zpos m) in
        let r := (2 * n + 2 ^ (- e)) / 2 ^ (1 - e) in
        SF2Prim (binary_normalize prec emax r 0 s)
  | _ => x
  end.

(** [Number.isFinite]: neither an infinity nor NaN. *)
Definition Number_isFinite (x : float) : bool :=
  match Prim2SF x with
  | S754_zero _ | S754_finite _ _ _ => true
  | _ => false
  end.

(** The integer that a number is, when it is one: a finite number is
    [m * 2^e] with its sign, and an integer when [e] is not negative or
    [2^-e] divides [m]. *)
Definition integer_of (x : float) : option Z :=
  match Prim2SF x with
  | S754_zero _ => Some 0
  | S754_finite s m e =>
      if 0 <=? e then Some (cond_Zopp s (Zpos m * 2 ^ e))
      else if Zpos m mod 2 ^ (- e) =? 0 then Some (cond_Zopp s (Zpos m / 2 ^ (- e)))
      else None
  | _ => None
  end.

(** [k - 1/2 <= x < k + 1/2] for a finite [x], in integers: [k] is the
    integer closest to [x], the larger one on a tie. *)
Definition rounds_to (x : float) (k : Z) : Prop :=
  match Prim2SF x with
  | S754_zero _ => k = 0
  | S754_finite s m e =>
      let n := cond_Zopp s (Zpos m) in
      (2 * k - 1) * 2 ^ Z.max 0 (- e) <= 2 * n * 2 ^ Z.max 0 e
        < (2 * k + 1) * 2 ^ Z.max 0 (- e)
  | _ => False
  end.

#[global] Instance rounds_to_dec x k : Decision (rounds_to x k).
Proof. unfold rounds_to. destruct (Prim2SF x); cbv zeta; apply _. Defined.

(** ** Request bridge *)

Record SnowrailFetchOptions : Type := mkOptions {
  method : option string;
  headers : option (Props string);
  body : JsValue;
  environment : option string;
  baseUrlOverride : option string
}.

(** [{}], the default of the [options] parameter. *)
Definition no_options : SnowrailFetchOptions :=
  mkOptions None None JUndefined None None.

Record FetchResult : Type := mkResult {
  url : string;
  status : Z;
  data : JsValue
}.

(** The object literal [{ url, status, data }] as a value. *)
Definition FetchResult_value (r : FetchResult) : JsValue :=
  JObject [ ("url", JString (url r));
            ("status", JNumber (Z2float (status r)));
            ("data", data r) ].

Definition is_undefined (v : JsValue) : bool :=
  match v with
  | JUndefined => true
  | _ => false
  end.

Definition opt_value (s : option string) : JsValue :=
  match s with
  | Some s => JString s
  | None => JUndefined
  end.

(** Arguments of the payment tool, after validation: [currency] has its
    default applied by the schema. *)
Record PaymentArgs : Type := mkPaymentArgs {
  pay_environment : option string;
  pay_baseUrl : option string;
  pay_xPayment : string;
  pay_recipientEmail : string;
  pay_amount : float;
  pay_currency : string;
  pay_firstName : string;
  pay_lastName : string;
  pay_telephone : option string;
  pay_addressLine1 : string;
  pay_city : string;
  pay_state : string;
  pay_postalCode : string;
  pay_countryCode : string;
  pay_description : option string
}.

(** Arguments of the agent-to-agent tool, after validation. *)
Record A2AArgs : Type := mkA2AArgs {
  a2a_environment : option string;
  a2a_baseUrl : option string;
  a2a_xPayment : string;
  a2a_messageType : string;
  a2a_messagePayload : string;
  a2a_agentId : option string;
  a2a_agentName : option string
}.

(** A content block [{ type, text }] and a tool result [{ content }]. *)
Record ContentBlock : Type := mkBlock {
  block_type : string;
  block_text : string
}.

Record ToolResult : Type := mkToolResult {
  content : list ContentBlock
}.

Section Platform.

(** [JSON.parse]: the value of a JSON text, or a thrown [SyntaxError]. *)
Variable JSON_parse : string -> Result JsValue.

(** [JSON.stringify(value, null, space)] on a value that is not
    [undefined]; [space] is 0 when the argument is omitted. *)
Variable JSON_stringify : JsValue -> nat -> string.

(** The network: what [fetch] resolves to for a request, or the failure
    it rejects with. *)
Variable transport : string -> RequestInit -> Result Response.

(** [fetch(url, init)]: the request is recorded and answered. *)
Definition fetch (url : string) (init : RequestInit) : IO Response :=
  fun sent => (transport url init, (sent ++ [(url, init)])%list).

Definition snowrailFetch (penv : ProcessEnv) (path : string)
    (options : SnowrailFetchOptions) : IO FetchResult :=
  let method := default "GET" (method options) in
  let headers := default [] (headers options) in
  let body := body options in
  baseUrl ← lift (resolveBaseUrl penv (environment options) (baseUrlOverride options));
  let url := baseUrl ++ path in
  let finalHeaders := spread [("Content-Type", "application/json")] headers in
  let init := mkInit method finalHeaders None in
  let init :=
    if negb (is_undefined body) && negb (String.eqb method "GET")
    then mkInit (init_method init) (init_headers init) (Some (JSON_stringify body 0))
    else init in
  res ← fetch url init;
  text ← lift (res_text res);
  let data :=
    try_catch (if truthy text then JSON_parse text else Ok JNull) (JString text) in
  mret (mkResult url (res_status res) data).

Definition toToolResult (payload : JsValue) : ToolResult :=
  mkToolResult [ mkBlock "text" (JSON_stringify payload 2) ].

(** *** Tool handlers

    A handler receives the arguments its schema has validated and
    completed with defaults. *)

(** A tool with no argument of its own: [GET path]. *)
Definition get_tool (path : string) (penv : ProcessEnv)
    (environment baseUrl : option string) : IO ToolResult :=
  result ← snowrailFetch penv path
    (mkOptions (Some "GET") None JUndefined environment baseUrl);
  mret (toToolResult (FetchResult_value result)).

Definition snowrail_health := get_tool "/health".

Definition snowrail_payment_process (penv : ProcessEnv)
    (args : PaymentArgs) : IO ToolResult :=
  let body := JObject
    [ ("recipient", JString (pay_recipientEmail args));
      ("amount", JNumber (pay_amount args));
      ("currency", JString (pay_currency args));
      ("customer", JObject
         [ ("first_name", JString (pay_firstName args));
           ("last_name", JString (pay_lastName args));
           ("email_address", JString (pay_recipientEmail args));
           ("telephone_number", opt_value (pay_telephone args));
           ("mailing_address", JObject
              [ ("address_line1", JString (pay_addressLine1 args));
                ("city", JString (pay_city args));
                ("state", JString (pay_state args));
                ("postal_code", JString (pay_postalCode args));
                ("country_code", JString (pay_countryCode args)) ]) ]);
      ("payment", JObject
         [ ("amount", JNumber (Math_round (pay_amount args * 100)%float));
           ("currency", JString (pay_currency args));
           ("recipient", JString (pay_recipientEmail args));
           ("description",
             JString (default "SnowRail MCP payment" (pay_description args))) ]) ] in
  result ← snowrailFetch penv "/api/payment/process"
    (mkOptions (Some "POST") (Some [("X-PAYMENT", pay_xPayment args)]) body
       (pay_environment args) (pay_baseUrl args));
  mret (toToolResult (FetchResult_value result)).

Definition snowrail_process_a2a (penv : ProcessEnv)
    (args : A2AArgs) : IO ToolResult :=
  let payload :=
    try_catch (JSON_parse (a2a_messagePayload args))
              (JString (a2a_messagePayload args)) in
  let message : Props JsValue :=
    [ ("type", JString (a2a_messageType args)); ("payload", payload) ] in
  let message :=
    match if_truthy (a2a_agentId args) with
    | Some agentId =>
        prop_set "agent"
          (JObject (spread [("id", JString agentId)]
             match if_truthy (a2a_agentName args) with
             | Some agentName => [("name", JString agentName)]
             | None => []
             end))
          message
    | None => message
    end in
  result ← snowrailFetch penv "/process"
    (mkOptions (Some "POST") (Some [("X-PAYMENT", a2a_xPayment args)])
       (JObject [("message", JObject message)])
       (a2a_environment args) (a2a_baseUrl args));
  mret (toToolResult (FetchResult_value result)).

End Platform.

(** ** Tool registry and mode gate *)

(** The server's registry: the names of the registered tools, in
    registration order. *)
Record McpServer : Type := mkServer {
  registeredTools : list string
}.

Definition new_McpServer : McpServer := mkServer [].

(** [server.tool(name, schema, handler)]: the SDK refuses a name that is
    already registered. *)
Definition server_tool (name : string) (server : McpServer) : Result McpServer :=
  if bool_decide (name ∈ registeredTools server)
  then Throw (Error ("Tool " ++ name ++ " is already registered"))
  else Ok (mkServer (registeredTools server ++ [name])%list).

(** The registration statements of the script, top to bottom. *)
Definition register_tools (penv : ProcessEnv) (server : McpServer) : Result McpServer :=
  server ← server_tool "snowrail_health" server;
  server ← server_tool "snowrail_agent_identity" server;
  server ← server_tool "snowrail_agent_stats" server;
  server ← server_tool "snowrail_agent_activity" server;
  server ← server_tool "snowrail_treasury_balance" server;
  server ← server_tool "snowrail_payroll_execute" server;
  server ← server_tool "snowrail_payroll_get_by_id" server;
  server ← server_tool "snowrail_payment_process" server;
  server ← server_tool "snowrail_treasury_test" server;
  server ← server_tool "snowrail_facilitator_health" server;
  server ← server_tool "snowrail_process_a2a" server;
  server ←
    (if isAdvanced penv then
       server ← server_tool "snowrail_facilitator_validate" server;
       server ← server_tool "snowrail_facilitator_verify" server;
       server_tool "snowrail_facilitator_settle" server
     else Ok server);
  if isInternal penv then
    server ← server_tool "snowrail_x402_callback" server;
    server ← server_tool "snowrail_auth_signup" server;
    server ← server_tool "snowrail_auth_login" server;
    server ← server_tool "snowrail_auth_me" server;
    server_tool "snowrail_dashboard" server
  else Ok server.

(** The registry of a process started with [penv]. *)
Definition startup (penv : ProcessEnv) : Result McpServer :=
  register_tools penv new_McpServer.

Definition tool_names (server : McpServer) : gset string :=
  list_to_set (registeredTools server).

(** The tiers as the documentation lists them (README, "Modos y
    herramientas disponibles"). *)
Definition core_tier : gset string :=
  {[ "snowrail_health"; "snowrail_agent_identity"; "snowrail_agent_stats";
     "snowrail_agent_activity"; "snowrail_treasury_balance";
     "snowrail_payroll_execute"; "snowrail_payroll_get_by_id";
     "snowrail_payment_process"; "snowrail_treasury_test";
     "snowrail_facilitator_health"; "snowrail_process_a2a" ]}.

Definition advanced_tier : gset string :=
  {[ "snowrail_facilitator_validate"; "snowrail_facilitator_verify";
     "snowrail_facilitator_settle" ]}.

Definition internal_tier : gset string :=
  {[ "snowrail_x402_callback"; "snowrail_auth_signup"; "snowrail_auth_login";
     "snowrail_auth_me"; "snowrail_dashboard" ]}.

(** ** The platform's JSON, for closed examples

    [snowrailFetch] and the handlers take [JSON.parse] and [JSON.stringify]
    as parameters, and every theorem below holds for any pair of them.  The
    module gives the two functions as ECMA-262 defines them on the values
    of [JsValue], so that the script can be run on concrete texts. *)

Module JSON.

(** *** Parsing *)

Definition is_ws (c : ascii) : bool :=
  is_code c 32 || is_code c 9 || is_code c 10 || is_code c 13.

Fixpoint skip_ws (s : string) : string :=
  match s with
  | String c r => if is_ws c then skip_ws r else s
  | EmptyString => s
  end.

Definition hex_of (c : ascii) : option Z :=
  let n := code c in
  if (48 <=? n) && (n <=? 57) then Some (n - 48)
  else if (65 <=? n) && (n <=? 70) then Some (n - 55)
  else if (97 <=? n) && (n <=? 102) then Some (n - 87)
  else None.

(** The binary64 number nearest to [(-1)^neg * m * 10^e10], ties to even. *)
Definition decimal_to_float (neg : bool) (m e10 : Z) : float :=
  if m =? 0 then SF2Prim (S754_zero neg)
  else
    let '(n, d) := if 0 <=? e10 then (m * 10 ^ e10, 1) else (m, 10 ^ (- e10)) in
    let '(q, e, l) := SFdiv_core_binary prec emax n 0 d 0 in
    SF2Prim (binary_round_aux prec emax neg q e l).

Definition read_fraction (s : string) : option (Z * Z * string) :=
  match s with
  | String c r =>
      if is_code c 46 then
        let '(f, n, r') := read_digits r 0 0 in
        if n =? 0 then None else Some (f, n, r')
      else Some (0, 0, s)
  | EmptyString => Some (0, 0, s)
  end.

Definition read_exponent (s : string) : option (Z * string) :=
  match s with
  | String c r =>
      if is_code c 101 || is_code c 69 then
        let '(neg, r) :=
          match r with
          | String c' r' =>
              if is_code c' 45 then (true, r') else if is_code c' 43 then (false, r') else (false, r)
          | EmptyString => (false, r)
          end in
        let '(x, n, r') := read_digits r 0 0 in
        if n =? 0 then None else Some (if neg then - x else x, r')
      else Some (0, s)
  | EmptyString => Some (0, s)
  end.

Definition read_number (s : string) : option (float * string) :=
  let '(neg, s) :=
    match s with
    | String c r => if is_code c 45 then (true, r) else (false, s)
    | EmptyString => (false, s)
    end in
  match s with
  | String c r =>
      match digit_of c with
      | None => None
      | Some d =>
          let '(int, _, s) := if d =? 0 then (0, 1, r) else read_digits s 0 0 in
          '(frac, n, s) ← read_fraction s;
          '(exp, s) ← read_exponent s;
          Some (decimal_to_float neg (int * 10 ^ n + frac) (exp - n), s)
      end
  | EmptyString => None
  end.

Definition byte (z : Z) : string := String (char z) "".

Definition utf8 (cp : Z) : string :=
  if cp <? 128 then byte cp
  else if cp <? 2048 then byte (192 + cp / 64) ++ byte (128 + cp mod 64)
  else if cp <? 65536 then
    byte (224 + cp / 4096) ++ byte (128 + cp / 64 mod 64) ++ byte (128 + cp mod 64)
  else
    byte (240 + cp / 262144) ++ byte (128 + cp / 4096 mod 64)
      ++ byte (128 + cp / 64 mod 64) ++ byte (128 + cp mod 64).

Definition is_high (u : Z) : bool := (55296 <=? u) && (u <=? 56319).
Definition is_low (u : Z) : bool := (56320 <=? u) && (u <=? 57343).

(** The text a pending high surrogate stands for when no low one follows. *)
Definition flush (pending : option Z) : string :=
  match pending with
  | Some hi => utf8 hi
  | None => ""
  end.

Definition simple_escape (c : ascii) : option Z :=
  let n := code c in
  if n =? 34 then Some 34 else if n =? 92 then Some 92 else if n =? 47 then Some 47
  else if n =? 98 then Some 8 else if n =? 102 then Some 12 else if n =? 110 then Some 10
  else if n =? 114 then Some 13 else if n =? 116 then Some 9 else None.

(** The characters of a string literal after its opening quote, up to the
    closing one.  [pending] is a high surrogate read from an escape and not
    yet paired. *)
Fixpoint read_string (s : string) (pending : option Z) : option (string * string) :=
  match s with
  | EmptyString => None
  | String c r =>
      if is_code c 34 then Some (flush pending, r)
      else if is_code c 92 then
        match r with
        | String e r1 =>
            if is_code e 117 then
              match r1 with
              | String h1 (String h2 (String h3 (String h4 r2))) =>
                  a ← hex_of h1; b ← hex_of h2; c ← hex_of h3; d ← hex_of h4;
                  let u := ((a * 16 + b) * 16 + c) * 16 + d in
                  match pending with
                  | Some hi =>
                      if is_low u then
                        '(str, rest) ← read_string r2 None;
                        Some (utf8 (65536 + (hi - 55296) * 1024 + (u - 56320)) ++ str, rest)
                      else if is_high u then
                        '(str, rest) ← read_string r2 (Some u);
                        Some (utf8 hi ++ str, rest)
                      else
                        '(str, rest) ← read_string r2 None;
                        Some (utf8 hi ++ utf8 u ++ str, rest)
                  | None =>
                      if is_high u then read_string r2 (Some u)
                      else
                        '(str, rest) ← read_string r2 None;
                        Some (utf8 u ++ str, rest)
                  end
              | _ => None
              end
            else
              x ← simple_escape e;
              '(str, rest) ← read_string r1 None;
              Some (flush pending ++ byte x ++ str, rest)
        | EmptyString => None
        end
      else if code c <? 32 then None
      else
        '(str, rest) ← read_string r None;
        Some (flush pending ++ String c str, rest)
  end.

(** [s] starts with [lit]: the rest. *)
Fixpoint expect (lit s : string) : option string :=
  match lit, s with
  | EmptyString, _ => Some s
  | String a lit', String b s' => if Ascii.eqb a b then expect lit' s' else None
  | _, EmptyString => None
  end.

Fixpoint parse_value (fuel : nat) (s : string) : option (JsValue * string) :=
  match fuel with
  | O => None
  | S fuel =>
      match skip_ws s with
      | EmptyString => None
      | String c r as s' =>
          if is_code c 123 then
            match skip_ws r with
            | String c' r' => if is_code c' 125 then Some (JObject [], r') else parse_members fuel r []
            | EmptyString => None
            end
          else if is_code c 91 then
            match skip_ws r with
            | String c' r' => if is_code c' 93 then Some (JArray [], r') else parse_elements fuel r []
            | EmptyString => None
            end
          else if is_code c 34 then
            '(str, rest) ← read_string r None; Some (JString str, rest)
          else if is_code c 116 then rest ← expect "rue" r; Some (JBool true, rest)
          else if is_code c 102 then rest ← expect "alse" r; Some (JBool false, rest)
          else if is_code c 110 then rest ← expect "ull" r; Some (JNull, rest)
          else '(x, rest) ← read_number s'; Some (JNumber x, rest)
      end
  end
with parse_elements (fuel : nat) (s : string) (acc : list JsValue) : option (JsValue * string) :=
  match fuel with
  | O => None
  | S fuel =>
      '(v, r) ← parse_value fuel s;
      match skip_ws r with
      | String c r' =>
          if is_code c 44 then parse_elements fuel r' (acc ++ [v])%list
          else if is_code c 93 then Some (JArray (acc ++ [v])%list, r')
          else None
      | EmptyString => None
      end
  end
with parse_members (fuel : nat) (s : string) (acc : Props JsValue) : option (JsValue * string) :=
  match fuel with
  | O => None
  | S fuel =>
      match skip_ws s with
      | String q r =>
          if is_code q 34 then
            '(k, r) ← read_string r None;
            match skip_ws r with
            | String c r =>
                if is_code c 58 then
                  '(v, r) ← parse_value fuel r;
                  match skip_ws r with
                  | String c r' =>
                      if is_code c 44 then parse_members fuel r' (prop_set k v acc)
                      else if is_code c 125 then Some (JObject (prop_set k v acc), r')
                      else None
                  | EmptyString => None
                  end
                else None
            | EmptyString => None
            end
          else None
      | EmptyString => None
      end
  end.

(** [JSON.parse(text)].  The fuel is never the reason of a rejection: a
    call of [parse_value] consumes a character, and an element or a member
    costs one unit for the loop and one for its value. *)
Definition parse (text : string) : Result JsValue :=
  match parse_value (2 * String.length text + 2) text with
  | Some (v, rest) =>
      match skip_ws rest with
      | EmptyString => Ok v
      | _ => Throw (SyntaxError "Unexpected non-whitespace character after JSON")
      end
  | None => Throw (SyntaxError "Unexpected token or end of JSON input")
  end.


(** *** Serialization *)

Fixpoint decimal_fuel (fuel : nat) (n : Z) (acc : string) : string :=
  match fuel with
  | O => acc
  | S fuel =>
      let acc := String (char (48 + n mod 10)) acc in
      if n <? 10 then acc else decimal_fuel fuel (n / 10) acc
  end.

(** The decimal digits of a natural number. *)
Definition decimal (n : Z) : string :=
  decimal_fuel (Z.to_nat (Z.log2 n) + 1) n "".

Fixpoint repeat_string (n : nat) (s : string) : string :=
  match n with
  | O => ""
  | S n => s ++ repeat_string n s
  end.

Definition zeros (n : Z) : string := repeat_string (Z.to_nat n) "0".

(** [num / den < 10 ^ n]. *)
Definition lt_pow10 (num den n : Z) : bool :=
  if 0 <=? n then num <? den * 10 ^ n else num * 10 ^ (- n) <? den.

(** The least [n' >= n] with [num / den < 10 ^ n']. *)
Fixpoint find_magnitude (fuel : nat) (num den n : Z) : Z :=
  match fuel with
  | O => n
  | S fuel => if lt_pow10 num den n then n else find_magnitude fuel num den (n + 1)
  end.

(** The shortest decimal [s * 10 ^ (n - k)], [s] of [k] digits, that reads
    back as [x = num / den]; among the decimals of that length the closest
    to [x]. *)
Fixpoint shortest (fuel : nat) (x : float) (num den n k : Z) : Z * Z * Z :=
  match fuel with
  | O => (0, k, n)
  | S fuel =>
      let p := k - n in
      let '(a, b) := if 0 <=? p then (num * 10 ^ p, den) else (num, den * 10 ^ (- p)) in
      let lo := a / b in
      let r := a mod b in
      let hi := lo + 1 in
      let reads_back s := PrimFloat.eqb (decimal_to_float false s (n - k)) x in
      let lo_first := (2 * r <? b) || ((2 * r =? b) && Z.even lo) in
      let '(c1, c2) := if lo_first then (lo, hi) else (hi, lo) in
      let found s := if s =? 10 ^ k then (1, 1, n + 1) else (s, k, n) in
      if r =? 0 then (lo, k, n)
      else if reads_back c1 then found c1
      else if reads_back c2 then found c2
      else shortest fuel x num den n (k + 1)
  end.

(** [Number::toString] in radix 10. *)
Definition Number_toString (x : float) : string :=
  match Prim2SF x with
  | S754_nan => "NaN"
  | S754_zero _ => "0"
  | S754_infinity s => if s then "-Infinity" else "Infinity"
  | S754_finite s m e =>
      let '(num, den) := if 0 <=? e then (Zpos m * 2 ^ e, 1) else (Zpos m, 2 ^ (- e)) in
      let n0 := (Z.log2 (Zpos m) + e) * 30103 / 100000 - 1 in
      let n := find_magnitude 5 num den n0 in
      let '(digits, k, n) := shortest 17 (PrimFloat.abs x) num den n 1 in
      let ds := decimal digits in
      let sub (from len : Z) := substring (Z.to_nat from) (Z.to_nat len) ds in
      (if s then "-" else "") ++
      (if (k <=? n) && (n <=? 21) then ds ++ zeros (n - k)
       else if (0 <? n) && (n <=? 21) then sub 0 n ++ "." ++ sub n (k - n)
       else if (-6 <? n) && (n <=? 0) then "0." ++ zeros (- n) ++ ds
       else
         let e := n - 1 in
         (if k =? 1 then ds else sub 0 1 ++ "." ++ sub 1 (k - 1))
           ++ "e" ++ (if 0 <=? e then "+" else "-") ++ decimal (Z.abs e))
  end.

Definition hex_digit (z : Z) : string :=
  byte (if z <? 10 then 48 + z else 87 + z).

Definition hex4 (u : Z) : string :=
  hex_digit (u / 4096) ++ hex_digit (u / 256 mod 16)
    ++ hex_digit (u / 16 mod 16) ++ hex_digit (u mod 16).

Definition escape (n : Z) : string := "\" ++ byte n.

(** The characters of [QuoteJSONString] between the quotes. *)
Fixpoint quote_chars (s : string) : string :=
  match s with
  | EmptyString => ""
  | String c r =>
      let n := code c in
      let plain := String c (quote_chars r) in
      if n =? 8 then escape 98 ++ quote_chars r
      else if n =? 9 then escape 116 ++ quote_chars r
      else if n =? 10 then escape 110 ++ quote_chars r
      else if n =? 12 then escape 102 ++ quote_chars r
      else if n =? 13 then escape 114 ++ quote_chars r
      else if n =? 34 then escape 34 ++ quote_chars r
      else if n =? 92 then escape 92 ++ quote_chars r
      else if n <? 32 then escape 117 ++ hex4 n ++ quote_chars r
      else if n =? 237 then
        match r with
        | String c2 (String c3 r') =>
            if 160 <=? code c2 then
              escape 117
                ++ hex4 (53248 + code c2 mod 64 * 64 + code c3 mod 64)
                ++ quote_chars r'
            else plain
        | _ => plain
        end
      else plain
  end.

Definition quote (s : string) : string := byte 34 ++ quote_chars s ++ byte 34.

Fixpoint join (sep : string) (parts : list string) : string :=
  match parts with
  | [] => ""
  | [p] => p
  | p :: parts => p ++ sep ++ join sep parts
  end.

Definition newline : string := byte 10.

(** [{ ... }] or [[ ... ]] around the serialized parts. *)
Definition wrap (open close gap indent stepback : string) (parts : list string) : string :=
  match parts with
  | [] => open ++ close
  | _ =>
      if String.eqb gap "" then open ++ join "," parts ++ close
      else
        open ++ newline ++ indent
          ++ join ("," ++ newline ++ indent) parts
          ++ newline ++ stepback ++ close
  end.

(** [SerializeJSONProperty]: [None] is [undefined]. *)
Fixpoint serialize (gap indent : string) (v : JsValue) : option string :=
  match v with
  | JUndefined => None
  | JNull => Some "null"
  | JBool b => Some (if b then "true" else "false")
  | JNumber x =>
      match Prim2SF x with
      | S754_nan | S754_infinity _ => Some "null"
      | _ => Some (Number_toString x)
      end
  | JString s => Some (quote s)
  | JArray items =>
      let inner := indent ++ gap in
      Some (wrap "[" "]" gap inner indent
              (map (fun v => default "null" (serialize gap inner v)) items))
  | JObject props =>
      let inner := indent ++ gap in
      let colon := if String.eqb gap "" then ":" else ": " in
      Some (wrap "{" "}" gap inner indent
              ((fix members (props : list (string * JsValue)) : list string :=
                  match props with
                  | [] => []
                  | (k, v) :: props =>
                      match serialize gap inner v with
                      | Some str => (quote k ++ colon ++ str) :: members props
                      | None => members props
                      end
                  end) props))
  end.

(** [JSON.stringify(value, null, space)]. *)
Definition stringify (value : JsValue) (space : nat) : option string :=
  serialize (repeat_string (Nat.min space 10) " ") "" value.

End JSON.

(** ** The other tools

    The handlers of the remaining [server.tool] statements, each on the
    arguments its schema has validated, and the table that ties a tool name
    to its handler. *)

(** The characters [encodeURIComponent] leaves as they are: letters, digits
    and the marks [-_.!~*'()]. *)
Definition unreserved (c : ascii) : bool :=
  let n := code c in
  ((65 <=? n) && (n <=? 90)) || ((97 <=? n) && (n <=? 122))
  || ((48 <=? n) && (n <=? 57))
  || (n =? 45) || (n =? 95) || (n =? 46) || (n =? 33) || (n =? 126)
  || (n =? 42) || (n =? 39) || (n =? 40) || (n =? 41).

Definition upper_hex (z : Z) : ascii :=
  char (if z <? 10 then 48 + z else 55 + z).

(** [%XX] for a byte. *)
Definition percent (c : ascii) : string :=
  String (char 37) (String (upper_hex (code c / 16)) (String (upper_hex (code c mod 16)) "")).

(** A [URIError]; it is kept as an [Error] with its message, the class is
    never inspected by the script. *)
Definition URIError (message : string) : Exn := Error message.

(** The three bytes of a lone surrogate start with 237 followed by a byte
    from 160 on. *)
Definition starts_surrogate (c : ascii) (r : string) : bool :=
  (code c =? 237) &&
  match r with
  | String c' _ => 160 <=? code c'
  | EmptyString => false
  end.

(** [encodeURIComponent]: every byte of the UTF-8 form is escaped, except
    the unreserved characters; a lone surrogate throws. *)
Fixpoint encodeURIComponent (s : string) : Result string :=
  match s with
  | EmptyString => Ok EmptyString
  | String c r =>
      if starts_surrogate c r then Throw (URIError "URI malformed")
      else
        rest ← encodeURIComponent r;
        Ok (if unreserved c then String c rest else percent c ++ rest)
  end.

(** A validated invocation: the tool and its arguments, in the order of
    the schema. *)
Inductive ToolCall : Type :=
  | call_health (environment baseUrl : option string)
  | call_agent_identity (environment baseUrl : option string)
  | call_agent_stats (environment baseUrl : option string)
  | call_agent_activity (environment baseUrl : option string)
  | call_treasury_balance (environment baseUrl : option string)
  | call_payroll_execute (environment baseUrl : option string) (xPayment : string)
  | call_payroll_get_by_id (environment baseUrl : option string) (payrollId : string)
  | call_payment_process (args : PaymentArgs)
  | call_treasury_test (environment baseUrl : option string) (xPayment : string)
  | call_facilitator_health (environment baseUrl : option string)
  | call_process_a2a (args : A2AArgs)
  | call_facilitator_validate (environment baseUrl : option string) (payment : string)
  | call_facilitator_verify (environment baseUrl : option string)
      (from to value validAfter validBefore nonce signature : string)
  | call_facilitator_settle (environment baseUrl : option string)
      (paymentProof meterId : string)
  | call_x402_callback (environment baseUrl callbackSecret : option string)
      (paymentIntentId token amount txHash : string) (timestamp : option string)
  | call_auth_signup (environment baseUrl : option string)
      (email password companyLegalName country : string)
  | call_auth_login (environment baseUrl : option string) (email password : string)
  | call_auth_me (environment baseUrl : option string) (jwtToken : string)
  | call_dashboard (environment baseUrl : option string) (jwtToken : string).

(** The name under which the script registers the tool. *)
Definition tool_name (c : ToolCall) : string :=
  match c with
  | call_health _ _ => "snowrail_health"
  | call_agent_identity _ _ => "snowrail_agent_identity"
  | call_agent_stats _ _ => "snowrail_agent_stats"
  | call_agent_activity _ _ => "snowrail_agent_activity"
  | call_treasury_balance _ _ => "snowrail_treasury_balance"
  | call_payroll_execute _ _ _ => "snowrail_payroll_execute"
  | call_payroll_get_by_id _ _ _ => "snowrail_payroll_get_by_id"
  | call_payment_process _ => "snowrail_payment_process"
  | call_treasury_test _ _ _ => "snowrail_treasury_test"
  | call_facilitator_health _ _ => "snowrail_facilitator_health"
  | call_process_a2a _ => "snowrail_process_a2a"
  | call_facilitator_validate _ _ _ => "snowrail_facilitator_validate"
  | call_facilitator_verify _ _ _ _ _ _ _ _ _ => "snowrail_facilitator_verify"
  | call_facilitator_settle _ _ _ _ => "snowrail_facilitator_settle"
  | call_x402_callback _ _ _ _ _ _ _ _ => "snowrail_x402_callback"
  | call_auth_signup _ _ _ _ _ _ => "snowrail_auth_signup"
  | call_auth_login _ _ _ _ => "snowrail_auth_login"
  | call_auth_me _ _ _ => "snowrail_auth_me"
  | call_dashboard _ _ _ => "snowrail_dashboard"
  end.

(** The [environment] and [baseUrl] arguments of an invocation. *)
Definition target (c : ToolCall) : option string * option string :=
  match c with
  | call_health e b | call_agent_identity e b | call_agent_stats e b
  | call_agent_activity e b | call_treasury_balance e b
  | call_payroll_execute e b _ | call_payroll_get_by_id e b _
  | call_treasury_test e b _ | call_facilitator_health e b
  | call_facilitator_validate e b _ | call_facilitator_verify e b _ _ _ _ _ _ _
  | call_facilitator_settle e b _ _ | call_x402_callback e b _ _ _ _ _ _
  | call_auth_signup e b _ _ _ _ | call_auth_login e b _ _
  | call_auth_me e b _ | call_dashboard e b _ => (e, b)
  | call_payment_process args => (pay_environment args, pay_baseUrl args)
  | call_process_a2a args => (a2a_environment args, a2a_baseUrl args)
  end.

Section Tools.

Variable JSON_parse : string -> Result JsValue.
Variable JSON_stringify : JsValue -> nat -> string.
Variable transport : string -> RequestInit -> Result Response.

Definition snowrail_agent_identity :=
  get_tool JSON_parse JSON_stringify transport "/api/agent/identity".
Definition snowrail_agent_stats :=
  get_tool JSON_parse JSON_stringify transport "/api/agent/stats".
Definition snowrail_agent_activity :=
  get_tool JSON_parse JSON_stringify transport "/api/agent/activity".
Definition snowrail_treasury_balance :=
  get_tool JSON_parse JSON_stringify transport "/api/treasury/balance".
Definition snowrail_facilitator_health :=
  get_tool JSON_parse JSON_stringify transport "/facilitator/health".

(** A tool protected by x402 that sends the empty object: [POST path] with
    the [X-PAYMENT] header. *)
Definition paid_tool (path : string) (penv : ProcessEnv)
    (environment baseUrl : option string) (xPayment : string) : IO ToolResult :=
  result ← snowrailFetch JSON_parse JSON_stringify transport penv path
    (mkOptions (Some "POST") (Some [("X-PAYMENT", xPayment)]) (JObject [])
       environment baseUrl);
  mret (toToolResult JSON_stringify (FetchResult_value result)).

Definition snowrail_payroll_execute := paid_tool "/api/payroll/execute".
Definition snowrail_treasury_test := paid_tool "/api/treasury/test".

Definition snowrail_payroll_get_by_id (penv : ProcessEnv)
    (environment baseUrl : option string) (payrollId : string) : IO ToolResult :=
  encoded ← lift (encodeURIComponent payrollId);
  let path := "/api/payroll/" ++ encoded in
  result ← snowrailFetch JSON_parse JSON_stringify transport penv path
    (mkOptions (Some "GET") None JUndefined environment baseUrl);
  mret (toToolResult JSON_stringify (FetchResult_value result)).

(** A tool that posts an object and has no header of its own. *)
Definition post_tool (path : string) (body : JsValue) (penv : ProcessEnv)
    (environment baseUrl : option string) : IO ToolResult :=
  result ← snowrailFetch JSON_parse JSON_stringify transport penv path
    (mkOptions (Some "POST") None body environment baseUrl);
  mret (toToolResult JSON_stringify (FetchResult_value result)).

Definition snowrail_facilitator_validate (penv : ProcessEnv)
    (environment baseUrl : option string) (payment : string) : IO ToolResult :=
  post_tool "/facilitator/validate" (JObject [("payment", JString payment)])
    penv environment baseUrl.

Definition snowrail_facilitator_verify (penv : ProcessEnv)
    (environment baseUrl : option string)
    (from to value validAfter validBefore nonce signature : string) : IO ToolResult :=
  post_tool "/facilitator/verify"
    (JObject [ ("from", JString from); ("to", JString to); ("value", JString value);
               ("validAfter", JString validAfter); ("validBefore", JString validBefore);
               ("nonce", JString nonce); ("signature", JString signature) ])
    penv environment baseUrl.

Definition snowrail_facilitator_settle (penv : ProcessEnv)
    (environment baseUrl : option string) (paymentProof meterId : string) : IO ToolResult :=
  post_tool "/facilitator/settle"
    (JObject [("paymentProof", JString paymentProof); ("meterId", JString meterId)])
    penv environment baseUrl.

Definition snowrail_x402_callback (penv : ProcessEnv)
    (environment baseUrl callbackSecret : option string)
    (paymentIntentId token amount txHash : string) (timestamp : option string) :
    IO ToolResult :=
  let headers : Props string := [] in
  let headers :=
    match if_truthy callbackSecret with
    | Some callbackSecret => prop_set "X-Callback-Secret" callbackSecret headers
    | None => headers
    end in
  result ← snowrailFetch JSON_parse JSON_stringify transport penv "/internal/x402/callback"
    (mkOptions (Some "POST") (Some headers)
       (JObject (spread [ ("paymentIntentId", JString paymentIntentId);
                          ("token", JString token); ("amount", JString amount);
                          ("txHash", JString txHash) ]
                   match if_truthy timestamp with
                   | Some timestamp => [("timestamp", JString timestamp)]
                   | None => []
                   end))
       environment baseUrl);
  mret (toToolResult JSON_stringify (FetchResult_value result)).

Definition snowrail_auth_signup (penv : ProcessEnv)
    (environment baseUrl : option string)
    (email password companyLegalName country : string) : IO ToolResult :=
  post_tool "/auth/signup"
    (JObject [ ("email", JString email); ("password", JString password);
               ("companyLegalName", JString companyLegalName);
               ("country", JString country) ])
    penv environment baseUrl.

Definition snowrail_auth_login (penv : ProcessEnv)
    (environment baseUrl : option string) (email password : string) : IO ToolResult :=
  post_tool "/auth/login"
    (JObject [("email", JString email); ("password", JString password)])
    penv environment baseUrl.

(** A tool behind the dashboard login: [GET path] with the bearer token. *)
Definition bearer_tool (path : string) (penv : ProcessEnv)
    (environment baseUrl : option string) (jwtToken : string) : IO ToolResult :=
  result ← snowrailFetch JSON_parse JSON_stringify transport penv path
    (mkOptions (Some "GET") (Some [("Authorization", "Bearer " ++ jwtToken)]) JUndefined
       environment baseUrl);
  mret (toToolResult JSON_stringify (FetchResult_value result)).

Definition snowrail_auth_me := bearer_tool "/auth/me".
Definition snowrail_dashboard := bearer_tool "/api/dashboard".

(** The handler the script registers under [tool_name c], applied to the
    arguments of [c]. *)
Definition run_tool (penv : ProcessEnv) (c : ToolCall) : IO ToolResult :=
  match c with
  | call_health e b => snowrail_health JSON_parse JSON_stringify transport penv e b
  | call_agent_identity e b => snowrail_agent_identity penv e b
  | call_agent_stats e b => snowrail_agent_stats penv e b
  | call_agent_activity e b => snowrail_agent_activity penv e b
  | call_treasury_balance e b => snowrail_treasury_balance penv e b
  | call_payroll_execute e b x => snowrail_payroll_execute penv e b x
  | call_payroll_get_by_id e b id => snowrail_payroll_get_by_id penv e b id
  | call_payment_process args =>
      snowrail_payment_process JSON_parse JSON_stringify transport penv args
  | call_treasury_test e b x => snowrail_treasury_test penv e b x
  | call_facilitator_health e b => snowrail_facilitator_health penv e b
  | call_process_a2a args =>
      snowrail_process_a2a JSON_parse JSON_stringify transport penv args
  | call_facilitator_validate e b p => snowrail_facilitator_validate penv e b p
  | call_facilitator_verify e b f t v va vb n s =>
      snowrail_facilitator_verify penv e b f t v va vb n s
  | call_facilitator_settle e b p m => snowrail_facilitator_settle penv e b p m
  | call_x402_callback e b s i t a h ts => snowrail_x402_callback penv e b s i t a h ts
  | call_auth_signup e b m p n c => snowrail_auth_signup penv e b m p n c
  | call_auth_login e b m p => snowrail_auth_login penv e b m p
  | call_auth_me e b t => snowrail_auth_me penv e b t
  | call_dashboard e b t => snowrail_dashboard penv e b t
  end.

(** What the server does with an invocation: the handler registered under
    its name, if there is one. *)
Definition dispatch (server : McpServer) (penv : ProcessEnv) (c : ToolCall) :
    option (IO ToolResult) :=
  if bool_decide (tool_name c ∈ registeredTools server)
  then Some (run_tool penv c) else None.

(** The requests an invocation causes. *)
Definition requests_of (server : McpServer) (penv : ProcessEnv) (c : ToolCall) :
    list Request :=
  match dispatch server penv c with
  | Some handler => performed handler
  | None => []
  end.

End Tools.

(** The endpoint of each tool as the documentation gives it (README,
    "Modos y herramientas disponibles"): the method, and the path up to the
    identifier of a payroll. *)
Definition documented_endpoint (name : string) : option (string * string) :=
  prop_get name
    [ ("snowrail_health", ("GET", "/health"));
      ("snowrail_agent_identity", ("GET", "/api/agent/identity"));
      ("snowrail_agent_stats", ("GET", "/api/agent/stats"));
      ("snowrail_agent_activity", ("GET", "/api/agent/activity"));
      ("snowrail_treasury_balance", ("GET", "/api/treasury/balance"));
      ("snowrail_payroll_execute", ("POST", "/api/payroll/execute"));
      ("snowrail_payroll_get_by_id", ("GET", "/api/payroll/"));
      ("snowrail_payment_process", ("POST", "/api/payment/process"));
      ("snowrail_treasury_test", ("POST", "/api/treasury/test"));
      ("snowrail_facilitator_health", ("GET", "/facilitator/health"));
      ("snowrail_process_a2a", ("POST", "/process"));
      ("snowrail_facilitator_validate", ("POST", "/facilitator/validate"));
      ("snowrail_facilitator_verify", ("POST", "/facilitator/verify"));
      ("snowrail_facilitator_settle", ("POST", "/facilitator/settle"));
      ("snowrail_x402_callback", ("POST", "/internal/x402/callback"));
      ("snowrail_auth_signup", ("POST", "/auth/signup"));
      ("snowrail_auth_login", ("POST", "/auth/login"));
      ("snowrail_auth_me", ("GET", "/auth/me"));
      ("snowrail_dashboard", ("GET", "/api/dashboard")) ].

(** The header that carries the caller's credential, if the tool has one. *)
Definition credential (c : ToolCall) : option (string * string) :=
  match c with
  | call_payroll_execute _ _ x | call_treasury_test _ _ x => Some ("X-PAYMENT", x)
  | call_payment_process args => Some ("X-PAYMENT", pay_xPayment args)
  | call_process_a2a args => Some ("X-PAYMENT", a2a_xPayment args)
  | call_x402_callback _ _ secret _ _ _ _ _ =>
      match if_truthy secret with
      | Some secret => Some ("X-Callback-Secret", secret)
      | None => None
      end
  | call_auth_me _ _ t | call_dashboard _ _ t => Some ("Authorization", "Bearer " ++ t)
  | _ => None
  end.

(** The values the schema accepts for [environment], [undefined]
    included; also the values of [SNOWRAIL_ENV] the documentation lists. *)
Definition valid_environment : list (option string) :=
  [None; Some "development"; Some "staging"; Some "production"].

(** Every character of [s] satisfies [p]. *)
Fixpoint all_chars (p : ascii -> bool) (s : string) : bool :=
  match s with
  | EmptyString => true
  | String c r => p c && all_chars p r
  end.

(** The value of an upper-case hexadecimal digit. *)
Definition unhex (c : ascii) : Z :=
  let n := code c in if n <? 65 then n - 48 else n - 55.

(** The three characters that end the path of a URL or start a new
    segment of it. *)
Definition path_delimiter (c : ascii) : bool :=
  is_code c 47 || is_code c 63 || is_code c 35.

(** ** A stub network and texts for examples *)

(** A network that answers every request with [res]. *)
Definition answering (res : Result Response) (url : string) (init : RequestInit) :
    Result Response := res.

(** The string [JSON.stringify] returns for a value that is not
    [undefined]. *)
Definition stringify_defined (value : JsValue) (space : nat) : string :=
  default "" (JSON.stringify value space).

(** A text written with an apostrophe where it has a double quote. *)
Fixpoint dq (s : string) : string :=
  match s with
  | EmptyString => EmptyString
  | String c r => String (if is_code c 39 then char 34 else c) (dq r)
  end.

(** A process started with none of the three variables set. *)
Definition unset : ProcessEnv := mkEnv None None None.

(** A backend that fails with a JSON error body, one that answers with no
    content, and one that answers with a page of text. *)
Definition backend_error : Result Response :=
  Ok (mkResponse 500 (Ok (dq "{'error':'boom'}"))).

Definition no_content : Result Response :=
  Ok (mkResponse 204 (Ok "")).

Definition bad_gateway : Result Response :=
  Ok (mkResponse 502 (Ok "<html>Bad Gateway</html>")).

Definition sample_payment : PaymentArgs :=
  mkPaymentArgs None None "demo-token" "ada@example.com" 19.99%float "USD"
    "Ada" "Lovelace" None "1 Main St" "Quito" "Pichincha" "170150" "EC" None.

(** An amount the schema accepts (a positive number) whose hundredfold is
    beyond the largest binary64 number. *)
Definition large_payment : PaymentArgs :=
  mkPaymentArgs None None "demo-token" "ada@example.com" 1e308%float "USD"
    "Ada" "Lovelace" None "1 Main St" "Quito" "Pichincha" "170150" "EC" None.

Definition sample_message : A2AArgs :=
  mkA2AArgs None None "demo-token" "payroll_request" "not json"
    (Some "agent-7") (Some "Bot").

Definition sample_callback : ToolCall :=
  call_x402_callback (Some "development") None (Some "s3cret")
    "pi_1" "tok_1" "10.00" "0xabc" None.

Definition sample_lookup : ToolCall :=
  call_payroll_get_by_id None None "../admin?x=1".

(** A network that cannot be reached. *)
Definition unreachable : Result Response := Throw (TypeError "fetch failed").


(** ** The two steps of the bridge, named

    What [snowrailFetch] hands to [fetch] once the base URL is known, and
    what it makes of a response body; [snowrailFetch_run] below shows that
    the bridge is made of exactly these. *)

Definition built_init (JSON_stringify : JsValue -> nat -> string)
    (options : SnowrailFetchOptions) : RequestInit :=
  mkInit (default "GET" (method options))
    (spread [("Content-Type", "application/json")] (default [] (headers options)))
    (if negb (is_undefined (body options))
        && negb (String.eqb (default "GET" (method options)) "GET")
     then Some (JSON_stringify (body options) 0%nat) else None).

Definition body_data (JSON_parse : string -> Result JsValue) (text : string) : JsValue :=
  try_catch (if truthy text then JSON_parse text else Ok JNull) (JString text).

(** * Properties *)

(** ** The platform's JSON on known texts

    The values ECMA-262 prescribes for [JSON.parse], [JSON.stringify],
    [Number::toString] and [Math.round] on these inputs. *)

Example parse_empty_text :
  JSON.parse "" = Throw (SyntaxError "Unexpected token or end of JSON input").
Proof. reflexivity. Qed.

Example parse_document :
  JSON.parse (dq " { 'a' : [1, 2.5e3, -0, true, null, 'x'], 'b' : {} } ")
  = Ok (JObject [ ("a", JArray [ JNumber 1; JNumber 2500; JNumber (-0); JBool true;
                                 JNull; JString "x" ]);
                  ("b", JObject []) ]).
Proof. reflexivity. Qed.

Example parse_numbers :
  map JSON.parse ["19.99"; "0.1"; "1e23"; "5e-324"; "2e-324"; "1e400";
                  "9007199254740993"; "1.7976931348623157e308"]
  = map (fun x => Ok (JNumber x))
        [19.99; 0.1; 1e23; 5e-324; 0; infinity;
         9007199254740992; 1.7976931348623157e308]%float.
Proof. reflexivity. Qed.

Example parse_rejects :
  forallb (fun text => match JSON.parse text with Throw _ => true | Ok _ => false end)
    [ "01"; "1."; ".5"; "-"; "+1"; "[1,]"; dq "{'a':1,}"; dq "{a:1}"; "nul"; "NaN";
      "not json"; "<html>Bad Gateway</html>"; "{} x"; dq "'tab	inside'"; dq "'\x'";
      dq "'open"; "[" ] = true.
Proof. reflexivity. Qed.

Example parse_duplicate_and_index_keys :
  JSON.parse (dq "{'b':1,'a':2,'7':3,'b':4,'2':5}")
  = Ok (JObject [ ("2", JNumber 5); ("7", JNumber 3); ("b", JNumber 4);
                  ("a", JNumber 2) ]).
Proof. reflexivity. Qed.

Example parse_escapes :
  JSON.parse (dq "'a\n\u0041\u00e9\ud83d\ude00\/'")
  = Ok (JString ("a" ++ JSON.byte 10 ++ "A" ++ JSON.byte 195 ++ JSON.byte 169
                   ++ JSON.byte 240 ++ JSON.byte 159 ++ JSON.byte 152 ++ JSON.byte 128
                   ++ "/")).
Proof. reflexivity. Qed.

Example number_to_string :
  map JSON.Number_toString
    [19.99; 1998.9999999999998; 1999; 0.1 + 0.2; 1e21; 1e-7; 0.000001;
     123456789012345680000; 5e-324; 1.7976931348623157e308; -2.5e-10; -0;
     100; 0.5; 123.456]%float
  = [ "19.99"; "1998.9999999999998"; "1999"; "0.30000000000000004"; "1e+21"; "1e-7";
      "0.000001"; "123456789012345680000"; "5e-324"; "1.7976931348623157e+308";
      "-2.5e-10"; "0"; "100"; "0.5"; "123.456" ].
Proof. vm_compute. reflexivity. Qed.

Example stringify_compact :
  JSON.stringify
    (JObject [ ("a", JArray [JNumber 1; JUndefined; JString (dq "q'\")]);
               ("u", JUndefined); ("n", JNull); ("x", JNumber nan) ]) 0
  = Some (dq "{'a':[1,null,'q\'\\'],'n':null,'x':null}").
Proof. vm_compute. reflexivity. Qed.

Example stringify_indented :
  JSON.stringify (JObject [ ("a", JArray [JNumber 1]); ("e", JObject []) ]) 2
  = Some (dq "{" ++ JSON.newline ++ dq "  'a': [" ++ JSON.newline
            ++ "    1" ++ JSON.newline ++ "  ]," ++ JSON.newline
            ++ dq "  'e': {}" ++ JSON.newline ++ "}").
Proof. vm_compute. reflexivity. Qed.

Example stringify_undefined : JSON.stringify JUndefined 0 = None.
Proof. reflexivity. Qed.

(** The result formatter on [{ a: 1, b: "x" }]: the emitted text
    parses back to the payload. *)
Example formatter_round_trip :
  let payload := JObject [("a", JNumber 1); ("b", JString "x")] in
  map (fun block => JSON.parse (block_text block))
      (content (toToolResult stringify_defined payload))
  = [Ok payload].
Proof. vm_compute. reflexivity. Qed.

(** The tool surface on an empty answer and on a failing backend. *)
Example health_on_no_content :
  outcome (snowrail_health JSON.parse stringify_defined (answering no_content)
             unset None None)
  = Ok (mkToolResult
          [ mkBlock "text"
              (dq "{" ++ JSON.newline
                 ++ dq "  'url': 'https://staging-api.snowrail.xyz/health',"
                 ++ JSON.newline ++ dq "  'status': 204," ++ JSON.newline
                 ++ dq "  'data': null" ++ JSON.newline ++ "}") ]).
Proof. vm_compute. reflexivity. Qed.

(** The product of binary64 numbers is rounded, not the product of the
    decimals written: 19.99 * 100 is 1998.9999999999998 and rounds up,
    1.005 * 100 is 100.49999999999999 and rounds down. *)
Example rounding_is_on_binary64 :
  (19.99 * 100 = 1998.9999999999998)%float /\
  Math_round (19.99 * 100) = 1999%float /\
  (1.005 * 100 = 100.49999999999999)%float /\
  Math_round (1.005 * 100) = 100%float.
Proof. repeat split; reflexivity. Qed.

Example rounds_to_samples :
  rounds_to 2.5 3 /\ ~ rounds_to 2.5 2 /\ rounds_to (-2.5) (-2) /\
  rounds_to (19.99 * 100) 1999 /\ rounds_to (1.005 * 100) 100 /\
  integer_of 1998.9999999999998 = None /\ integer_of (-0) = Some 0.
Proof. repeat split; try (apply (bool_decide_unpack _); vm_compute; exact I). Qed.

Example math_round_ties_and_signs :
  map Math_round [2.5; -2.5; -0.2; 0.49999999999999994; 4503599627370497; infinity]%float
  = [3; -2; -0; 0; 4503599627370497; infinity]%float.
Proof. reflexivity. Qed.

(** ** [Math.round] gives integers *)

(** The number of binary digits of a mantissa. *)
Lemma digits2_pos_bounds p :
  2 ^ (Zpos (digits2_pos p) - 1) <= Zpos p < 2 ^ Zpos (digits2_pos p).
Proof.
  assert (Hstep : forall d, 2 ^ (Zpos (Pos.succ d) - 1) = 2 * 2 ^ (Zpos d - 1) /\
                            2 ^ Zpos (Pos.succ d) = 2 * 2 ^ Zpos d).
  { intros d. rewrite Pos2Z.inj_succ.
    replace (Z.succ (Zpos d) - 1) with (Z.succ (Zpos d - 1)) by lia.
    rewrite !Z.pow_succ_r by lia. split; reflexivity. }
  induction p as [p IH|p IH|]; cbn [digits2_pos].
  - destruct (Hstep (digits2_pos p)) as [-> ->]. lia.
  - destruct (Hstep (digits2_pos p)) as [-> ->]. lia.
  - cbn. lia.
Qed.

Lemma digits2_pos_le p n : 0 <= n -> Zpos p < 2 ^ n -> Zpos (digits2_pos p) <= n.
Proof.
  intros Hn Hp. destruct (digits2_pos_bounds p) as [Hlow _].
  destruct (Z.le_gt_cases (Zpos (digits2_pos p)) n) as [|Hgt]; [assumption|].
  assert (2 ^ n <= 2 ^ (Zpos (digits2_pos p) - 1)) by (apply Z.pow_le_mono_r; lia).
  lia.
Qed.

Lemma digits2_pos_shift p k :
  digits2_pos (Pos.iter xO p k) = (digits2_pos p + k)%positive.
Proof.
  induction k as [|k IH] using Pos.peano_ind.
  - cbn. lia.
  - rewrite Pos.iter_succ. cbn [digits2_pos]. rewrite IH. lia.
Qed.

Lemma Zpos_shift p k : Zpos (Pos.iter xO p k) = Zpos p * 2 ^ Zpos k.
Proof.
  induction k as [|k IH] using Pos.peano_ind.
  - cbn. lia.
  - rewrite Pos.iter_succ, Pos2Z.inj_xO, IH, Pos2Z.inj_succ, Z.pow_succ_r by lia. lia.
Qed.

(** A mantissa of 53 digits with an exponent in range is left as it is. *)
Lemma binary_round_aux_canonical sx mz ez :
  Zpos (digits2_pos mz) = 53 -> -1074 <= ez <= 971 ->
  binary_round_aux prec emax sx (Zpos mz) ez loc_Exact = S754_finite sx mz ez.
Proof.
  intros Hd He. unfold binary_round_aux, shr_fexp.
  cbn [shr_record_of_loc Zdigits2]. rewrite Hd.
  assert (Hshift : fexp prec emax (53 + ez) - ez = 0).
  { unfold fexp, emin, prec, emax. lia. }
  rewrite Hshift. cbn [shr shr_m loc_of_shr_record round_nearest_even shr_record_of_loc Zdigits2].
  rewrite Hd, Hshift. cbn [shr shr_m].
  replace (ez <=? emax - prec) with true; [reflexivity|].
  symmetry. apply Z.leb_le. unfold emax, prec. lia.
Qed.

(** The number of an integer below 2^53 is that integer. *)
Lemma integer_of_normalize r s :
  Z.abs r < 2 ^ 53 ->
  integer_of (SF2Prim (binary_normalize prec emax r 0 s)) = Some r.
Proof.
  intros Hr.
  assert (Hround : forall sx p, Zpos p < 2 ^ 53 ->
            integer_of (SF2Prim (binary_round prec emax sx p 0)) = Some (cond_Zopp sx (Zpos p))).
  { intros sx p Hp.
    pose proof (digits2_pos_le p 53 ltac:(lia) Hp) as Hd.
    unfold binary_round, shl_align.
    replace (fexp prec emax (Zpos (digits2_pos p) + 0) - 0) with (Zpos (digits2_pos p) - 53)
      by (unfold fexp, emin, prec, emax; lia).
    replace (fexp prec emax (Zpos (digits2_pos p) + 0)) with (Zpos (digits2_pos p) - 53)
      by (unfold fexp, emin, prec, emax; lia).
    destruct (Zpos (digits2_pos p) - 53) as [|k|k] eqn:Hk; [|lia|].
    - rewrite binary_round_aux_canonical by lia.
      unfold integer_of. rewrite Prim2SF_SF2Prim.
      + cbn [Z.leb Z.compare]. rewrite Z.pow_0_r, Z.mul_1_r. reflexivity.
      + cbn [valid_binary]. unfold bounded, canonical_mantissa.
        replace (Zpos (digits2_pos p)) with 53 by lia. reflexivity.
    - rewrite binary_round_aux_canonical.
      + unfold integer_of. rewrite Prim2SF_SF2Prim.
        * cbn [Z.leb Z.compare Z.opp]. rewrite Zpos_shift, Z.mod_mul by lia.
          cbn [Z.eqb]. rewrite Z.div_mul by lia. reflexivity.
        * cbn [valid_binary]. unfold bounded, canonical_mantissa.
          rewrite digits2_pos_shift, Pos2Z.inj_add.
          replace (Zpos (digits2_pos p) + Zpos k + Zneg k) with (Zpos (digits2_pos p)) by lia.
          apply andb_true_iff. split; [apply Z.eqb_eq|apply Z.leb_le];
            unfold fexp, emin, prec, emax; lia.
      + rewrite digits2_pos_shift, Pos2Z.inj_add. lia.
      + lia. }
  destruct r as [|p|p]; cbn [binary_normalize].
  - unfold integer_of. rewrite Prim2SF_SF2Prim; reflexivity.
  - apply (Hround false). lia.
  - apply (Hround true). lia.
Qed.

(** The mantissa of a binary64 number has at most 53 digits. *)
Lemma finite_mantissa x s m e :
  Prim2SF x = S754_finite s m e -> Zpos m < 2 ^ 53.
Proof.
  intros Hx. pose proof (Prim2SF_valid x) as Hvalid. rewrite Hx in Hvalid.
  cbn [valid_binary] in Hvalid. unfold bounded, canonical_mantissa in Hvalid.
  apply andb_true_iff in Hvalid as [Hcanonical _]. apply Z.eqb_eq in Hcanonical.
  destruct (digits2_pos_bounds m) as [_ Hup].
  assert (2 ^ Zpos (digits2_pos m) <= 2 ^ 53).
  { apply Z.pow_le_mono_r; [lia|]. unfold fexp, emin, prec, emax in Hcanonical. lia. }
  lia.
Qed.

(** [Math.round] of a finite number is an integer, the closest one, the
    larger one on a tie. *)
Lemma Math_round_spec x :
  Number_isFinite x = true ->
  exists k, integer_of (Math_round x) = Some k /\ rounds_to x k.
Proof.
  unfold Number_isFinite, Math_round, rounds_to.
  destruct (Prim2SF x) as [s|s| |s m e] eqn:Hx; try discriminate; intros _.
  - exists 0. unfold integer_of. rewrite Hx. split; reflexivity.
  - destruct (Z.leb_spec 0 e) as [He|He].
    + exists (cond_Zopp s (Zpos m * 2 ^ e)). unfold integer_of. rewrite Hx.
      replace (0 <=? e) with true by (symmetry; apply Z.leb_le; exact He).
      split; [reflexivity|]. cbv zeta.
      rewrite (Z.max_l 0 (- e)), (Z.max_r 0 e) by lia.
      rewrite Z.pow_0_r. destruct s; cbn [cond_Zopp]; lia.
    + pose proof (finite_mantissa _ _ _ _ Hx) as Hm.
      set (P := 2 ^ (- e)).
      assert (HP : 2 <= P).
      { unfold P. change 2 with (2 ^ 1) at 1. apply Z.pow_le_mono_r; lia. }
      assert (H2P : 2 ^ (1 - e) = 2 * P).
      { unfold P. replace (1 - e) with (Z.succ (- e)) by lia. apply Z.pow_succ_r. lia. }
      cbv zeta. rewrite H2P.
      set (n := cond_Zopp s (Zpos m)).
      assert (Hn : Z.abs n < 2 ^ 53) by (unfold n; destruct s; cbn [cond_Zopp]; lia).
      pose proof (Z.div_mod (2 * n + P) (2 * P) ltac:(lia)) as Hdiv.
      pose proof (Z.mod_pos_bound (2 * n + P) (2 * P) ltac:(lia)) as Hmod.
      set (r := (2 * n + P) / (2 * P)) in *.
      exists r. split.
      * apply integer_of_normalize. nia.
      * rewrite (Z.max_r 0 (- e)), (Z.max_l 0 e) by lia. fold P. rewrite Z.pow_0_r. nia.
Qed.

(** ** Objects *)

Lemma prop_get_set {V} (k k' : string) (v : V) (o : Props V) :
  prop_get k (prop_set k' v o) = if String.eqb k k' then Some v else prop_get k o.
Proof.
  induction o as [|[k0 v0] o IH]; cbn; [reflexivity|].
  destruct (String.eqb_spec k' k0) as [->|Hne]; cbn.
  - destruct (String.eqb k k0); reflexivity.
  - destruct (index_before k' k0); cbn.
    + reflexivity.
    + rewrite IH. destruct (String.eqb_spec k k0) as [->|_]; [|reflexivity].
      destruct (String.eqb_spec k0 k') as [<-|_]; [contradiction|reflexivity].
Qed.

(** In [{ ...o, ...extra }] the last assignment of a key wins. *)
Lemma prop_get_spread {V} (k : string) (o extra : Props V) :
  prop_get k (spread o extra) =
  match prop_get k (rev extra) with
  | Some v => Some v
  | None => prop_get k o
  end.
Proof.
  unfold spread. revert o.
  induction extra as [|[k' v'] extra IH] using rev_ind; intros o; [reflexivity|].
  rewrite fold_left_app, rev_unit. cbn. rewrite prop_get_set.
  destruct (String.eqb k k'); [reflexivity|apply IH].
Qed.

(** ** The request bridge *)

Section Bridge.

Variable JSON_parse : string -> Result JsValue.
Variable JSON_stringify : JsValue -> nat -> string.
Variable transport : string -> RequestInit -> Result Response.

Abbreviation bridge := (snowrailFetch JSON_parse JSON_stringify transport).
Abbreviation init_of := (built_init JSON_stringify).
Abbreviation data_of := (body_data JSON_parse).

(** One run of the bridge, step by step: no request when the base URL does
    not resolve, else exactly one, whose answer decides the outcome. *)
Lemma snowrailFetch_run penv path options sent :
  bridge penv path options sent =
  match resolveBaseUrl penv (environment options) (baseUrlOverride options) with
  | Throw e => (Throw e, sent)
  | Ok baseUrl =>
      let url := baseUrl ++ path in
      (match transport url (init_of options) with
       | Throw e => Throw e
       | Ok res =>
           match res_text res with
           | Throw e => Throw e
           | Ok text => Ok (mkResult url (res_status res) (data_of text))
           end
       end, (sent ++ [(url, init_of options)])%list)
  end.
Proof.
  unfold snowrailFetch, built_init, body_data, mbind, IO_bind, mret, IO_ret, lift, fetch.
  destruct (resolveBaseUrl _ _ _) as [baseUrl|e]; [|reflexivity].
  cbn.
  destruct (negb (is_undefined (body options)) && _); cbn;
    (destruct (transport _ _) as [res|e]; [|reflexivity]);
    (destruct (res_text res) as [text|e]; reflexivity).
Qed.

Lemma snowrailFetch_performed penv path options :
  performed (bridge penv path options) =
  match resolveBaseUrl penv (environment options) (baseUrlOverride options) with
  | Throw _ => []
  | Ok baseUrl => [(baseUrl ++ path, init_of options)]
  end.
Proof.
  unfold performed. rewrite snowrailFetch_run.
  destruct (resolveBaseUrl _ _ _); reflexivity.
Qed.

Lemma snowrailFetch_outcome penv path options url init :
  performed (bridge penv path options) = [(url, init)] ->
  init = init_of options /\
  outcome (bridge penv path options) =
    match transport url init with
    | Throw e => Throw e
    | Ok res =>
        match res_text res with
        | Throw e => Throw e
        | Ok text => Ok (mkResult url (res_status res) (data_of text))
        end
    end.
Proof.
  rewrite snowrailFetch_performed. unfold outcome. rewrite snowrailFetch_run.
  destruct (resolveBaseUrl _ _ _) as [baseUrl|e]; [|discriminate].
  intros [= <- <-]. split; reflexivity.
Qed.

Lemma truthy_nonempty text : text <> "" -> truthy text = true.
Proof.
  intros H. unfold truthy. destruct (String.eqb_spec text ""); [contradiction|reflexivity].
Qed.

(** C2: once a request has been handed to [fetch], any response the
    network gives, whatever its status code, makes [snowrailFetch] return
    [{url, status, data}] with that status; the call fails only with the
    failure of [fetch] itself or of reading the body. *)
Theorem C2_status_never_thrown penv path options url init :
  performed (bridge penv path options) = [(url, init)] ->
  (forall res text,
      transport url init = Ok res -> res_text res = Ok text ->
      outcome (bridge penv path options) =
        Ok (mkResult url (res_status res) (data_of text))) /\
  (forall e,
      outcome (bridge penv path options) = Throw e ->
      transport url init = Throw e \/
      exists res, transport url init = Ok res /\ res_text res = Throw e).
Proof.
  intros Hsent. destruct (snowrailFetch_outcome _ _ _ _ _ Hsent) as [_ ->].
  split.
  - intros res text -> ->. reflexivity.
  - intros e. destruct (transport url init) as [res|e'].
    + destruct (res_text res) as [text|e''] eqn:Htext; [discriminate|].
      intros [= ->]. right. exists res. split; [reflexivity|exact Htext].
    + intros [= ->]. left. reflexivity.
Qed.

(** C5, amended: for a response body that is not empty, [data] is the
    parsed value when [JSON.parse] accepts the text and the raw text when
    it throws; either way the call returns. *)
Theorem C5_parsed_or_raw penv path options url init res text :
  performed (bridge penv path options) = [(url, init)] ->
  transport url init = Ok res -> res_text res = Ok text ->
  text <> "" ->
  exists r,
    outcome (bridge penv path options) = Ok r /\
    (forall v, JSON_parse text = Ok v -> data r = v) /\
    (forall e, JSON_parse text = Throw e -> data r = JString text).
Proof.
  intros Hsent Hres Htext Hne.
  destruct (snowrailFetch_outcome _ _ _ _ _ Hsent) as [_ Hout].
  rewrite Hres, Htext in Hout.
  eexists. split; [exact Hout|].
  cbn. unfold body_data. rewrite (truthy_nonempty _ Hne).
  split; intros ? ->; reflexivity.
Qed.

(** C9: an empty response body gives [data = null]; [JSON.parse] is not
    consulted, so the value is neither the empty string nor the fallback of
    a failed parse. *)
Theorem C9_empty_body_is_null penv path options url init res :
  performed (bridge penv path options) = [(url, init)] ->
  transport url init = Ok res -> res_text res = Ok "" ->
  outcome (bridge penv path options) = Ok (mkResult url (res_status res) JNull).
Proof.
  intros Hsent Hres Htext.
  destruct (snowrailFetch_outcome _ _ _ _ _ Hsent) as [_ ->].
  rewrite Hres, Htext. reflexivity.
Qed.

Lemma is_undefined_spec v : is_undefined v = true <-> v = JUndefined.
Proof. destruct v; cbn; split; congruence. Qed.

(** The condition [body !== undefined && method !== "GET"]. *)
Lemma attach_condition options :
  negb (is_undefined (body options))
    && negb (String.eqb (default "GET" (method options)) "GET") = true <->
  body options <> JUndefined /\ default "GET" (method options) <> "GET".
Proof.
  rewrite andb_true_iff, !negb_true_iff, String.eqb_neq.
  rewrite <- is_undefined_spec, not_true_iff_false. reflexivity.
Qed.

(** C8: a request of the bridge carries a body exactly when [options.body]
    is not [undefined] and the method is not GET, and the body it carries
    is [JSON.stringify(options.body)]. *)
Theorem C8_body_attached_iff penv path options request :
  request ∈ performed (bridge penv path options) ->
  (is_Some (init_body request.2) <->
     body options <> JUndefined /\ default "GET" (method options) <> "GET") /\
  (forall text, init_body request.2 = Some text ->
     text = JSON_stringify (body options) 0%nat).
Proof.
  rewrite snowrailFetch_performed.
  destruct (resolveBaseUrl _ _ _) as [baseUrl|e]; [|intros H; inversion H].
  intros ->%list_elem_of_singleton. cbn [snd built_init init_body].
  pose proof (attach_condition options) as Hcond.
  destruct (negb (is_undefined (body options)) && _).
  - split; [split; [intros _; apply Hcond; reflexivity|intros _; eexists; reflexivity]|].
    intros text [= <-]. reflexivity.
  - split; [split; [intros [text [=]]|intros H; apply Hcond in H; discriminate]|].
    intros text [=].
Qed.

(** X1: one call of the bridge hands at most one request to [fetch]: none when
    the base URL does not resolve, else one, to the base URL followed by
    the path as given. *)
Theorem bridge_one_request penv path options :
  (length (performed (bridge penv path options)) <= 1)%nat /\
  map fst (performed (bridge penv path options)) =
    match resolveBaseUrl penv (environment options) (baseUrlOverride options) with
    | Ok baseUrl => [baseUrl ++ path]
    | Throw _ => []
    end.
Proof.
  rewrite snowrailFetch_performed.
  destruct (resolveBaseUrl _ _ _); cbn; split; (lia || reflexivity).
Qed.

(** X2: the headers of a request: a header of the caller replaces the default
    of the same name, and [Content-Type: application/json] stands when the
    caller gives none. *)
Theorem caller_headers_win penv path options request name :
  request ∈ performed (bridge penv path options) ->
  prop_get name (init_headers request.2) =
    match prop_get name (rev (default [] (headers options))) with
    | Some value => Some value
    | None => prop_get name [("Content-Type", "application/json")]
    end.
Proof.
  rewrite snowrailFetch_performed.
  destruct (resolveBaseUrl _ _ _) as [baseUrl|e]; [|intros H; inversion H].
  intros ->%list_elem_of_singleton. cbn [snd built_init init_headers].
  apply prop_get_spread.
Qed.

End Bridge.

(** ** The handlers that shape their request *)

Section Handlers.

Variable JSON_parse : string -> Result JsValue.
Variable JSON_stringify : JsValue -> nat -> string.
Variable transport : string -> RequestInit -> Result Response.

(** Formatting the result performs no request. *)
Lemma performed_then_format {A B} (m : IO A) (f : A -> B) :
  performed (x ← m; mret (f x)) = performed m.
Proof.
  unfold performed, mbind, IO_bind, mret, IO_ret.
  destruct (m []) as [[a|e] sent]; reflexivity.
Qed.

(** C6, amended: when the binary64 product [amount * 100] is finite, the
    [payment] sub-object of the body the payment tool sends carries an
    integer amount, the integer closest to that product (the larger one on
    a tie); for the amount 19.99 it is 1999. *)
Theorem C6_payment_minor_units penv args baseUrl :
  resolveBaseUrl penv (pay_environment args) (pay_baseUrl args) = Ok baseUrl ->
  Number_isFinite (pay_amount args * 100)%float = true ->
  exists body init amount minor,
    performed (snowrail_payment_process JSON_parse JSON_stringify transport penv args)
      = [(baseUrl ++ "/api/payment/process", init)] /\
    init_body init = Some (JSON_stringify body 0%nat) /\
    field "amount" (field "payment" body) = JNumber amount /\
    integer_of amount = Some minor /\
    rounds_to (pay_amount args * 100)%float minor /\
    (pay_amount args = 19.99%float -> amount = 1999%float /\ minor = 1999).
Proof.
  intros Hbase Hfinite.
  destruct (Math_round_spec _ Hfinite) as (minor & Hminor & Hclosest).
  unfold snowrail_payment_process.
  rewrite performed_then_format, snowrailFetch_performed. cbn. rewrite Hbase.
  eexists _, _, _, minor. split; [reflexivity|]. split; [reflexivity|].
  split; [reflexivity|]. split; [exact Hminor|]. split; [exact Hclosest|].
  intros Hamount. rewrite Hamount in Hminor |- *. split; [reflexivity|].
  vm_compute in Hminor. injection Hminor as <-. reflexivity.
Qed.

(** C7: the agent-to-agent tool sends its request whether or not
    [messagePayload] is JSON; [message.payload] of the body is the parsed
    value when [JSON.parse] accepts the string and the string itself when
    it throws. *)
Theorem C7_payload_parsed_or_raw penv args baseUrl :
  resolveBaseUrl penv (a2a_environment args) (a2a_baseUrl args) = Ok baseUrl ->
  exists message init,
    performed (snowrail_process_a2a JSON_parse JSON_stringify transport penv args)
      = [(baseUrl ++ "/process", init)] /\
    init_body init = Some (JSON_stringify (JObject [("message", message)]) 0%nat) /\
    (forall v, JSON_parse (a2a_messagePayload args) = Ok v ->
       field "payload" message = v) /\
    (forall e, JSON_parse (a2a_messagePayload args) = Throw e ->
       field "payload" message = JString (a2a_messagePayload args)).
Proof.
  intros Hbase. unfold snowrail_process_a2a.
  rewrite performed_then_format, snowrailFetch_performed. cbn. rewrite Hbase.
  eexists _, _. split; [reflexivity|]. split; [reflexivity|].
  destruct (if_truthy (a2a_agentId args)); cbn;
    (split; [intros v ->|intros e ->]; reflexivity).
Qed.

End Handlers.

(** ** The environment resolver *)

(** C3: an override that is supplied is returned as it is, whatever the
    environment argument and the process variables.  Supplied is what the
    guard [if (baseUrlOverride)] tests: a string that is not empty.  Every
    caller passes the [baseUrl] of a tool call, which its schema has
    validated as a URL, so the empty string reaches the resolver from no
    call. *)
Theorem C3_override_wins penv environment override :
  override <> "" ->
  resolveBaseUrl penv environment (Some override) = Ok override.
Proof.
  intros Hne. unfold resolveBaseUrl. cbn. rewrite (truthy_nonempty _ Hne). reflexivity.
Qed.

(** The guard is a test for truth, so an empty override, which no tool
    call can carry, would count as none. *)
Lemma empty_override_is_none penv environment :
  resolveBaseUrl penv environment (Some "") = resolveBaseUrl penv environment None.
Proof. reflexivity. Qed.

Lemma BASE_URLS_truthy environment url :
  prop_get environment BASE_URLS = Some url -> truthy url = true.
Proof.
  cbn. repeat (destruct (String.eqb environment _); [intros [= <-]; reflexivity|]).
  discriminate.
Qed.

(** C4: with no override, each of the names development, staging and
    production resolves to its entry of [BASE_URLS], production to the
    literal https://api.snowrail.xyz; with no environment argument, no
    override and [SNOWRAIL_ENV] unset, the result is the staging URL. *)
Theorem C4_environment_table penv :
  (forall environment,
      environment ∈ ["development"; "staging"; "production"] ->
      exists url, prop_get environment BASE_URLS = Some url /\
                  resolveBaseUrl penv (Some environment) None = Ok url) /\
  resolveBaseUrl penv (Some "production") None = Ok "https://api.snowrail.xyz" /\
  (SNOWRAIL_ENV penv = None ->
   resolveBaseUrl penv None None = Ok "https://staging-api.snowrail.xyz").
Proof.
  split; [|split].
  - intros environment Hin.
    assert (Hurl : exists url, prop_get environment BASE_URLS = Some url).
    { repeat (apply elem_of_cons in Hin as [->|Hin]; [eexists; reflexivity|]).
      inversion Hin. }
    destruct Hurl as [url Hurl]. exists url. split; [exact Hurl|].
    unfold resolveBaseUrl, BASE_URLS_at. cbn -[prop_get BASE_URLS Object_prototype].
    rewrite Hurl. cbn. rewrite (BASE_URLS_truthy _ _ Hurl). reflexivity.
  - reflexivity.
  - intros Hunset. unfold resolveBaseUrl, DEFAULT_ENV. rewrite Hunset. reflexivity.
Qed.

(** ** The mode gate and the registry *)

(** Closed decidable goals, by evaluation. *)
Ltac decide_closed := apply (bool_decide_unpack _); vm_compute; exact I.

Lemma startup_by_flags penv :
  exists server,
    startup penv = Ok server /\
    tool_names server =
      core_tier ∪ (if isAdvanced penv then advanced_tier else ∅)
                ∪ (if isInternal penv then internal_tier else ∅).
Proof.
  unfold startup, register_tools.
  destruct (isAdvanced penv), (isInternal penv);
    (eexists; split; [reflexivity|decide_closed]).
Qed.

(** C1: started with the mode core, advanced or internal, the script
    registers exactly the tools of the core tier, of the core and advanced
    tiers, and of all three tiers. *)
Theorem C1_tools_by_mode env base :
  (exists server, startup (mkEnv (Some "core") env base) = Ok server /\
                  tool_names server = core_tier) /\
  (exists server, startup (mkEnv (Some "advanced") env base) = Ok server /\
                  tool_names server = core_tier ∪ advanced_tier) /\
  (exists server, startup (mkEnv (Some "internal") env base) = Ok server /\
                  tool_names server = core_tier ∪ advanced_tier ∪ internal_tier).
Proof.
  split; [|split].
  - destruct (startup_by_flags (mkEnv (Some "core") env base)) as (server & Hstart & Hnames).
    exists server. split; [exact Hstart|]. rewrite Hnames. decide_closed.
  - destruct (startup_by_flags (mkEnv (Some "advanced") env base)) as (server & Hstart & Hnames).
    exists server. split; [exact Hstart|]. rewrite Hnames. decide_closed.
  - destruct (startup_by_flags (mkEnv (Some "internal") env base)) as (server & Hstart & Hnames).
    exists server. split; [exact Hstart|]. rewrite Hnames. decide_closed.
Qed.

Lemma mode_gate_closed penv :
  SNOWRAIL_MCP_MODE penv <> Some "advanced" ->
  SNOWRAIL_MCP_MODE penv <> Some "internal" ->
  isAdvanced penv = false /\ isInternal penv = false.
Proof.
  intros Hadv Hint. unfold isAdvanced, isInternal, MCP_MODE.
  destruct (SNOWRAIL_MCP_MODE penv) as [mode|]; cbn; [|split; reflexivity].
  destruct (String.eqb_spec mode "advanced") as [->|_]; [contradiction|].
  destruct (String.eqb_spec mode "internal") as [->|_]; [contradiction|].
  split; reflexivity.
Qed.

(** C10: when the mode variable is unset or holds any string other than
    advanced and internal, startup succeeds and the registered tools are
    those of the core tier, none of the advanced or internal tier. *)
Theorem C10_other_modes_are_core penv :
  SNOWRAIL_MCP_MODE penv <> Some "advanced" ->
  SNOWRAIL_MCP_MODE penv <> Some "internal" ->
  exists server,
    startup penv = Ok server /\
    tool_names server = core_tier /\
    tool_names server ## advanced_tier ∪ internal_tier.
Proof.
  intros Hadv Hint.
  destruct (mode_gate_closed penv Hadv Hint) as [Ha Hi].
  destruct (startup_by_flags penv) as (server & Hstart & Hnames).
  rewrite Ha, Hi in Hnames.
  exists server. split; [exact Hstart|].
  assert (Hcore : tool_names server = core_tier)
    by (rewrite Hnames; decide_closed).
  split; [exact Hcore|].
  rewrite Hcore. decide_closed.
Qed.

(** ** The claims at concrete inputs

    The script run on the platform's JSON and a stub network. *)

Abbreviation run_fetch := (snowrailFetch JSON.parse stringify_defined).

Lemma C2_witness :
  performed (run_fetch (answering backend_error) unset "/health" no_options)
    = [("https://staging-api.snowrail.xyz/health",
        mkInit "GET" [("Content-Type", "application/json")] None)] /\
  outcome (run_fetch (answering backend_error) unset "/health" no_options)
    = Ok (mkResult "https://staging-api.snowrail.xyz/health" 500
            (JObject [("error", JString "boom")])).
Proof.
  split; [reflexivity|].
  exact (proj1 (C2_status_never_thrown JSON.parse stringify_defined
                  (answering backend_error) unset "/health" no_options _ _ eq_refl)
               _ _ eq_refl eq_refl).
Defined.

Lemma C3_witness :
  "http://localhost:9999" <> "" /\
  resolveBaseUrl (mkEnv None (Some "production") (Some "https://other.example"))
    (Some "staging") (Some "http://localhost:9999") = Ok "http://localhost:9999".
Proof.
  split; [discriminate|].
  apply (C3_override_wins _ _ "http://localhost:9999"). discriminate.
Defined.

Lemma C4_witness :
  (exists url, prop_get "development" BASE_URLS = Some url /\
               resolveBaseUrl unset (Some "development") None = Ok url) /\
  resolveBaseUrl unset None None = Ok "https://staging-api.snowrail.xyz".
Proof.
  destruct (C4_environment_table unset) as (Htable & _ & Hdefault).
  split.
  - apply Htable. apply list_elem_of_here.
  - apply Hdefault. reflexivity.
Defined.

(** C5 as stated fails for the empty body: the empty text is not JSON
    (with any fuel), and [data] is [null], not the raw text. *)
Lemma C5_counterexample :
  (forall fuel, JSON.parse_value fuel "" = None) /\
  JSON.parse "" = Throw (SyntaxError "Unexpected token or end of JSON input") /\
  exists r,
    outcome (run_fetch (answering no_content) unset "/health" no_options) = Ok r /\
    data r = JNull /\ data r <> JString "".
Proof.
  split; [intros [|fuel]; reflexivity|]. split; [reflexivity|].
  eexists. split; [reflexivity|]. split; [reflexivity|discriminate].
Qed.

Lemma C5_witness :
  exists r,
    outcome (run_fetch (answering bad_gateway) unset "/health" no_options) = Ok r /\
    (forall v, JSON.parse "<html>Bad Gateway</html>" = Ok v -> data r = v) /\
    (forall e, JSON.parse "<html>Bad Gateway</html>" = Throw e ->
       data r = JString "<html>Bad Gateway</html>").
Proof.
  apply (C5_parsed_or_raw JSON.parse stringify_defined (answering bad_gateway)
           unset "/health" no_options _ _ _ "<html>Bad Gateway</html>"
           eq_refl eq_refl eq_refl).
  discriminate.
Defined.

Lemma C9_witness :
  outcome (run_fetch (answering no_content) unset "/health" no_options)
    = Ok (mkResult "https://staging-api.snowrail.xyz/health" 204 JNull).
Proof.
  exact (C9_empty_body_is_null JSON.parse stringify_defined (answering no_content)
           unset "/health" no_options _ _ _ eq_refl eq_refl eq_refl).
Defined.

Lemma C8_witness :
  let options := mkOptions (Some "POST") None (JObject []) None None in
  let request := ("https://staging-api.snowrail.xyz/api/treasury/test",
                  mkInit "POST" [("Content-Type", "application/json")] (Some "{}")) in
  request ∈ performed (run_fetch (answering no_content) unset "/api/treasury/test" options) /\
  (is_Some (init_body request.2) <->
     body options <> JUndefined /\ default "GET" (method options) <> "GET") /\
  (forall text, init_body request.2 = Some text ->
     text = stringify_defined (body options) 0%nat).
Proof.
  intros options request.
  assert (Hin : request ∈ performed
            (run_fetch (answering no_content) unset "/api/treasury/test" options))
    by apply list_elem_of_here.
  split; [exact Hin|].
  exact (C8_body_attached_iff JSON.parse stringify_defined (answering no_content)
           unset "/api/treasury/test" options request Hin).
Defined.

(** C6 as stated fails for an amount whose hundredfold overflows: the
    amount 1e308 is a positive number, its product with 100 is [Infinity],
    which [Math.round] returns as it is: no integer, and [null] in the
    body that is sent. *)
Lemma C6_counterexample :
  Number_isFinite (pay_amount large_payment) = true /\
  (0 <? pay_amount large_payment)%float = true /\
  exists body init,
    performed (snowrail_payment_process JSON.parse stringify_defined
                 (answering no_content) unset large_payment)
      = [("https://staging-api.snowrail.xyz/api/payment/process", init)] /\
    init_body init = Some (stringify_defined body 0%nat) /\
    field "amount" (field "payment" body) = JNumber infinity /\
    integer_of infinity = None /\
    stringify_defined (field "payment" body) 0%nat
      = dq "{'amount':null,'currency':'USD','recipient':'ada@example.com','description':'SnowRail MCP payment'}".
Proof.
  split; [reflexivity|]. split; [reflexivity|].
  eexists _, _. split; [reflexivity|]. split; [reflexivity|].
  split; [reflexivity|]. split; [reflexivity|]. vm_compute. reflexivity.
Qed.

Lemma C6_witness :
  Number_isFinite (19.99 * 100)%float = true /\
  exists body init,
    performed (snowrail_payment_process JSON.parse stringify_defined
                 (answering no_content) unset sample_payment)
      = [("https://staging-api.snowrail.xyz/api/payment/process", init)] /\
    init_body init = Some (stringify_defined body 0%nat) /\
    field "amount" (field "payment" body) = JNumber 1999%float /\
    integer_of 1999%float = Some 1999.
Proof.
  split; [reflexivity|].
  destruct (C6_payment_minor_units JSON.parse stringify_defined (answering no_content)
              unset sample_payment "https://staging-api.snowrail.xyz" eq_refl eq_refl)
    as (body & init & amount & minor & Hsent & Hbody & Hfield & Hminor & _ & Hsample).
  destruct (Hsample eq_refl) as [-> ->].
  exists body, init. split; [exact Hsent|]. split; [exact Hbody|].
  split; [exact Hfield|exact Hminor].
Defined.

Lemma C7_witness :
  (exists e, JSON.parse "not json" = Throw e) /\
  exists message init,
    performed (snowrail_process_a2a JSON.parse stringify_defined
                 (answering no_content) unset sample_message)
      = [("https://staging-api.snowrail.xyz/process", init)] /\
    init_body init = Some (stringify_defined (JObject [("message", message)]) 0%nat) /\
    field "payload" message = JString "not json".
Proof.
  split; [eexists; reflexivity|].
  destruct (C7_payload_parsed_or_raw JSON.parse stringify_defined (answering no_content)
              unset sample_message "https://staging-api.snowrail.xyz" eq_refl)
    as (message & init & Hsent & Hbody & _ & Hraw).
  exists message, init. split; [exact Hsent|]. split; [exact Hbody|].
  eapply Hraw. reflexivity.
Defined.

Lemma C10_witness :
  exists server,
    startup (mkEnv (Some "Advanced") None None) = Ok server /\
    tool_names server = core_tier /\
    tool_names server ## advanced_tier ∪ internal_tier.
Proof.
  apply (C10_other_modes_are_core (mkEnv (Some "Advanced") None None)); discriminate.
Defined.

Lemma caller_headers_win_witness :
  let options :=
    mkOptions (Some "POST") (Some [("X-PAYMENT", "demo-token"); ("Content-Type", "text/plain")])
      (JObject []) None None in
  let request :=
    ("https://staging-api.snowrail.xyz/api/treasury/test",
     mkInit "POST" [("Content-Type", "text/plain"); ("X-PAYMENT", "demo-token")]
       (Some "{}")) in
  request ∈ performed (run_fetch (answering no_content) unset "/api/treasury/test" options) /\
  prop_get "Content-Type" (init_headers request.2) = Some "text/plain".
Proof.
  intros options request.
  assert (Hin : request ∈ performed
            (run_fetch (answering no_content) unset "/api/treasury/test" options))
    by apply list_elem_of_here.
  split; [exact Hin|].
  exact (caller_headers_win JSON.parse stringify_defined (answering no_content) unset
           "/api/treasury/test" options request "Content-Type" Hin).
Defined.

(** With [SNOWRAIL_ENV] set to a name outside the table and no
    [SNOWRAIL_API_BASE], a call that names no environment and no override
    fails with the configuration error before any request. *)
Theorem unconfigured_base_url mode path :
  outcome (run_fetch (answering no_content) (mkEnv mode (Some "prod") None) path no_options)
    = Throw (Error "SnowRail API base URL not configured. Set SNOWRAIL_ENV or SNOWRAIL_API_BASE.") /\
  performed (run_fetch (answering no_content) (mkEnv mode (Some "prod") None) path no_options)
    = [].
Proof. split; reflexivity. Qed.

(** A default environment named after a property of [Object.prototype] is
    no configuration error: the lookup finds the inherited value, and the
    request goes to a URL made of its text. *)
Example inherited_name_is_found mode :
  resolveBaseUrl (mkEnv mode (Some "constructor") None) None None
    = Ok "function Object() { [native code] }" /\
  resolveBaseUrl (mkEnv mode (Some "__proto__") None) None None = Ok "[object Object]" /\
  performed (run_fetch (answering no_content) (mkEnv mode (Some "toString") None)
               "/health" no_options)
    = [("function toString() { [native code] }/health",
        mkInit "GET" [("Content-Type", "application/json")] None)].
Proof. repeat split; reflexivity. Qed.

(** * Further properties of the script *)

(** ** The environment resolver, case by case *)

Lemma if_truthy_Some s t : if_truthy s = Some t <-> s = Some t /\ t <> "".
Proof.
  unfold if_truthy, truthy. destruct s as [s|]; [|split; [discriminate|intros [[=] _]]].
  destruct (String.eqb_spec s ""); cbn; split.
  - discriminate.
  - intros [[= ->] ?]. contradiction.
  - intros [= ->]. split; [reflexivity|assumption].
  - intros [[= ->] _]. reflexivity.
Qed.

Lemma if_truthy_None s : if_truthy s = None <-> s = None \/ s = Some "".
Proof.
  unfold if_truthy, truthy. destruct s as [s|]; [|split; [left; reflexivity|reflexivity]].
  destruct (String.eqb_spec s ""); cbn; split.
  - subst. right. reflexivity.
  - reflexivity.
  - discriminate.
  - intros [[=]|[=]]. contradiction.
Qed.

(** What a lookup in [BASE_URLS] finds, own or inherited, is truthy. *)
Lemma BASE_URLS_entry name url :
  BASE_URLS_at name = Some url -> if_truthy (Some url) = Some url.
Proof.
  unfold BASE_URLS_at. cbn.
  repeat (destruct (String.eqb name _); [intros [= <-]; reflexivity|]).
  discriminate.
Qed.

(** A lookup finds nothing exactly for the names that are neither in the
    table nor inherited. *)
Lemma BASE_URLS_at_None name :
  BASE_URLS_at name = None <-> name ∉ BASE_URLS_names.
Proof.
  split.
  - intros Hnone Hin. unfold BASE_URLS_names in Hin. cbn in Hin.
    repeat (apply elem_of_cons in Hin as [->|Hin]; [discriminate Hnone|]).
    inversion Hin.
  - intros Hnot. unfold BASE_URLS_at. cbn.
    repeat match goal with
           | |- context [String.eqb name ?known] =>
               destruct (String.eqb_spec name known) as [->|_];
               [exfalso; apply Hnot; decide_closed|]
           end.
    reflexivity.
Qed.

(** X4: a base URL that [resolveBaseUrl] returns is never the empty string. *)
Theorem resolved_url_not_empty penv environment override url :
  resolveBaseUrl penv environment override = Ok url -> url <> "".
Proof.
  unfold resolveBaseUrl.
  destruct (if_truthy override) as [o|] eqn:Ho.
  - intros [= <-]. apply if_truthy_Some in Ho as [_ Ho]. exact Ho.
  - cbv zeta. destruct (if_truthy (nullish _ _)) as [u|] eqn:Hu; [|discriminate].
    intros [= <-]. apply if_truthy_Some in Hu as [_ Hu]. exact Hu.
Qed.

(** X3: [resolveBaseUrl] throws exactly when the override is absent or
    empty, a lookup of the environment in force (the argument, else
    [SNOWRAIL_ENV], else staging) finds nothing in [BASE_URLS], own or
    inherited, and [SNOWRAIL_API_BASE] is empty, or is unset while a lookup
    of the default environment finds nothing either.  A lookup finds
    nothing for the names outside the table and [Object.prototype] only:
    an environment called constructor is no configuration error. *)
Theorem configuration_error_iff penv environment override :
  (exists e, resolveBaseUrl penv environment override = Throw e) <->
  if_truthy override = None /\
  (default (DEFAULT_ENV penv) environment ∉ BASE_URLS_names) /\
  (SNOWRAIL_API_BASE penv = Some "" \/
   SNOWRAIL_API_BASE penv = None /\ DEFAULT_ENV penv ∉ BASE_URLS_names).
Proof.
  rewrite <- !BASE_URLS_at_None.
  unfold resolveBaseUrl, DEFAULT_BASE_URL. cbv zeta.
  destruct (if_truthy override) as [o|].
  { split; [intros [e [=]]|intros [[=] _]]. }
  destruct (BASE_URLS_at (default _ environment)) as [u|] eqn:Hu; cbn [nullish].
  { rewrite (BASE_URLS_entry _ _ Hu). split; [intros [e [=]]|intros (_ & [=] & _)]. }
  destruct (SNOWRAIL_API_BASE penv) as [b|]; cbn [nullish].
  - destruct (if_truthy (Some b)) as [b'|] eqn:Hb.
    + apply if_truthy_Some in Hb as [[= <-] Hne].
      split; [intros [e [=]]|]. intros (_ & _ & [[= ->]|[[=] _]]). contradiction.
    + apply if_truthy_None in Hb as [[=]|[= ->]].
      split; [intros _; auto|intros _; eexists; reflexivity].
  - destruct (BASE_URLS_at (DEFAULT_ENV penv)) as [d|] eqn:Hd.
    + rewrite (BASE_URLS_entry _ _ Hd).
      split; [intros [e [=]]|]. intros (_ & _ & [[=]|[_ [=]]]).
    + cbn. split; [intros _; auto|intros _; eexists; reflexivity].
Qed.

(** X5: [SNOWRAIL_API_BASE] is a fallback only: it changes nothing when a
    lookup of the environment in force finds a value in [BASE_URLS], own or
    inherited, and it is the result when that lookup finds nothing and no
    override is given. *)
Theorem api_base_is_only_a_fallback mode senv base environment override :
  (default (default "staging" senv) environment ∈ BASE_URLS_names ->
   resolveBaseUrl (mkEnv mode senv base) environment override
   = resolveBaseUrl (mkEnv mode senv None) environment override) /\
  (forall url, base = Some url -> url <> "" -> if_truthy override = None ->
   default (default "staging" senv) environment ∉ BASE_URLS_names ->
   resolveBaseUrl (mkEnv mode senv base) environment override = Ok url).
Proof.
  unfold resolveBaseUrl, DEFAULT_BASE_URL, DEFAULT_ENV. cbn [SNOWRAIL_ENV SNOWRAIL_API_BASE].
  split.
  - intros Hin. destruct (if_truthy override); [reflexivity|].
    destruct (BASE_URLS_at (default _ environment)) eqn:Hat; [reflexivity|].
    apply BASE_URLS_at_None in Hat. contradiction.
  - intros url -> Hne -> Hnot. apply BASE_URLS_at_None in Hnot. rewrite Hnot.
    cbn. rewrite (truthy_nonempty _ Hne). reflexivity.
Qed.

(** X6: with [SNOWRAIL_ENV] unset or one of the three names, a call whose
    [environment] the schema accepts never meets the configuration error. *)
Theorem validated_calls_resolve penv environment override :
  SNOWRAIL_ENV penv ∈ valid_environment ->
  environment ∈ valid_environment ->
  exists url, resolveBaseUrl penv environment override = Ok url.
Proof.
  intros Hdefault Henv. unfold resolveBaseUrl. 
  destruct (if_truthy override) as [o|]; [eexists; reflexivity|].
  unfold DEFAULT_ENV, valid_environment in *.
  repeat (apply elem_of_cons in Hdefault as [->|Hdefault]);
    repeat (apply elem_of_cons in Henv as [->|Henv]);
    try (inversion Hdefault); try (inversion Henv);
    eexists; reflexivity.
Qed.

(** ** [encodeURIComponent] *)

Ltac each_byte c := destruct c as [[] [] [] [] [] [] [] []].

Lemma percent_chars c :
  all_chars (fun c => unreserved c || is_code c 37) (percent c) = true.
Proof. each_byte c; reflexivity. Qed.

Lemma unreserved_plain c :
  unreserved c = true -> is_code c 37 = false /\ (code c =? 237) = false.
Proof. each_byte c; cbn; intros H; try discriminate H; split; reflexivity. Qed.

Lemma byte_of_hex c :
  char (16 * unhex (upper_hex (code c / 16)) + unhex (upper_hex (code c mod 16))) = c.
Proof. each_byte c; reflexivity. Qed.

Lemma all_chars_app p s t :
  all_chars p (s ++ t) = all_chars p s && all_chars p t.
Proof.
  induction s as [|c s IH]; simpl; [reflexivity|]. rewrite IH, andb_assoc. reflexivity.
Qed.

Lemma all_chars_weaken (p q : ascii -> bool) s :
  (forall c, p c = true -> q c = true) -> all_chars p s = true -> all_chars q s = true.
Proof.
  intros Hpq. induction s as [|c s IH]; cbn; [reflexivity|].
  rewrite !andb_true_iff. intros [Hc Hs]. split; [apply Hpq, Hc|apply IH, Hs].
Qed.

(** What [encodeURIComponent] returns is made of unreserved characters and
    percent signs. *)
Lemma encoded_chars s t :
  encodeURIComponent s = Ok t ->
  all_chars (fun c => unreserved c || is_code c 37) t = true.
Proof.
  revert t. induction s as [|c s IH]; cbn; intros t.
  - intros [= <-]. reflexivity.
  - destruct (starts_surrogate c s); [discriminate|].
    destruct (encodeURIComponent s) as [rest|]; [|discriminate]. cbn.
    specialize (IH rest eq_refl).
    destruct (unreserved c) eqn:Hc; intros [= <-].
    + cbn [all_chars]. rewrite Hc, IH. reflexivity.
    + rewrite all_chars_app, percent_chars, IH. reflexivity.
Qed.

(** An identifier made of unreserved characters is left as it is. *)
Lemma encoded_plain s :
  all_chars unreserved s = true -> encodeURIComponent s = Ok s.
Proof.
  induction s as [|c s IH]; cbn; [reflexivity|].
  rewrite andb_true_iff. intros [Hc Hs]. rewrite (IH Hs). cbn.
  unfold starts_surrogate. destruct (unreserved_plain c Hc) as [_ ->]. cbn.
  rewrite Hc. reflexivity.
Qed.

(** [encodeURIComponent] is injective. *)
Lemma encoded_injective s1 s2 t :
  encodeURIComponent s1 = Ok t -> encodeURIComponent s2 = Ok t -> s1 = s2.
Proof.
  revert s2 t. induction s1 as [|c1 s1 IH]; intros [|c2 s2] t; cbn.
  - reflexivity.
  - intros [= <-]. destruct (starts_surrogate c2 s2); [discriminate|].
    destruct (encodeURIComponent s2); [|discriminate]. cbn.
    destruct (unreserved c2); discriminate.
  - destruct (starts_surrogate c1 s1); [discriminate|].
    destruct (encodeURIComponent s1); [|discriminate]. cbn.
    destruct (unreserved c1); intros [= <-]; discriminate.
  - destruct (starts_surrogate c1 s1); [discriminate|].
    destruct (starts_surrogate c2 s2); [intros _; discriminate|].
    destruct (encodeURIComponent s1) as [t1|] eqn:H1; [|discriminate].
    destruct (encodeURIComponent s2) as [t2|] eqn:H2; [|intros _; discriminate].
    cbn.
    destruct (unreserved c1) eqn:Hc1, (unreserved c2) eqn:Hc2;
      intros [= <-] H; inversion H as [H']; clear H; unfold percent in H';
      cbn [String.append] in H'; inversion H'; subst.
    + f_equal. exact (IH _ _ eq_refl H2).
    + discriminate Hc1.
    + discriminate Hc2.
    + change (t2 = t1) in H3. subst t2. f_equal; [|exact (IH _ _ eq_refl H2)].
      rewrite <- (byte_of_hex c1), <- (byte_of_hex c2). congruence.
Qed.

Lemma append_cancel (prefix s t : string) : prefix ++ s = prefix ++ t -> s = t.
Proof.
  induction prefix as [|c prefix IH]; cbn; [auto|].
  intros [= H]. exact (IH H).
Qed.

Lemma plain_or_percent_is_no_delimiter c :
  unreserved c || is_code c 37 = true -> negb (path_delimiter c) = true.
Proof. each_byte c; cbn; intros H; first [reflexivity|discriminate H]. Qed.

(** ** The tools *)

Lemma mode_not_internal penv :
  SNOWRAIL_MCP_MODE penv <> Some "internal" -> isInternal penv = false.
Proof.
  intros Hne. unfold isInternal, MCP_MODE.
  destruct (SNOWRAIL_MCP_MODE penv) as [mode|]; cbn; [|reflexivity].
  destruct (String.eqb_spec mode "internal") as [->|_]; [contradiction|reflexivity].
Qed.

Section ToolProperties.

Variable JSON_parse : string -> Result JsValue.
Variable JSON_stringify : JsValue -> nat -> string.
Variable transport : string -> RequestInit -> Result Response.

Abbreviation bridge' := (snowrailFetch JSON_parse JSON_stringify transport).
Abbreviation run := (run_tool JSON_parse JSON_stringify transport).
Abbreviation format := (fun result => toToolResult JSON_stringify (FetchResult_value result)).

(** A handler either stops on a malformed identifier, before anything is
    sent, or is one call of the bridge followed by the formatter. *)
Lemma run_tool_cases c :
  (exists e environment baseUrl payrollId,
      c = call_payroll_get_by_id environment baseUrl payrollId /\
      encodeURIComponent payrollId = Throw e /\
      forall penv sent, run penv c sent = (Throw e, sent)) \/
  exists path options,
    (forall penv sent,
        run penv c sent = (result ← bridge' penv path options; mret (format result)) sent) /\
    (environment options, baseUrlOverride options) = target c /\
    default [] (headers options) = option_list (credential c) /\
    exists m p rest,
      documented_endpoint (tool_name c) = Some (m, p) /\
      method options = Some m /\ path = p ++ rest /\
      (rest = "" \/ exists environment baseUrl payrollId,
                      c = call_payroll_get_by_id environment baseUrl payrollId /\
                      encodeURIComponent payrollId = Ok rest) /\
      (m = "GET" /\ body options = JUndefined \/ m = "POST" /\ body options <> JUndefined).
Proof.
  destruct c; cbn [run_tool];
    try (right; eexists _, _; split; [intros penv sent; reflexivity|];
         cbn; split; [reflexivity|]; split; [reflexivity|];
         eexists _, _, ""; split; [reflexivity|]; split; [reflexivity|];
         split; [reflexivity|]; split; [left; reflexivity|];
         (left; split; reflexivity) || (right; split; [reflexivity|discriminate])).
  - unfold snowrail_payroll_get_by_id.
    match goal with
    | |- context [encodeURIComponent ?id] =>
        destruct (encodeURIComponent id) as [segment|e] eqn:Hid
    end.
    + right. eexists ("/api/payroll/" ++ segment), _.
      split; [intros penv sent; reflexivity|].
      split; [reflexivity|]. split; [reflexivity|].
      exists "GET", "/api/payroll/", segment.
      split; [reflexivity|]. split; [reflexivity|]. split; [reflexivity|].
      split; [right; eexists _, _, _; split; [reflexivity|exact Hid]
             |left; split; reflexivity].
    + left. eexists e, _, _, _.
      split; [reflexivity|]. split; [exact Hid|]. intros penv sent. reflexivity.
  - right. unfold snowrail_x402_callback. eexists _, _.
    split; [intros penv sent; reflexivity|].
    split; [reflexivity|].
    split; [cbn; destruct (if_truthy _); reflexivity|].
    eexists _, _, "". split; [reflexivity|]. split; [reflexivity|].
    split; [reflexivity|]. split; [left; reflexivity|].
    right. split; [reflexivity|discriminate].
Qed.

(** The three ways a tool call can go: a malformed identifier, an
    unresolved base URL, or one request whose answer decides the outcome. *)
Lemma run_tool_run penv c :
  (exists e environment baseUrl payrollId,
      c = call_payroll_get_by_id environment baseUrl payrollId /\
      encodeURIComponent payrollId = Throw e /\
      performed (run penv c) = [] /\ outcome (run penv c) = Throw e) \/
  (exists e,
      resolveBaseUrl penv (target c).1 (target c).2 = Throw e /\
      performed (run penv c) = [] /\ outcome (run penv c) = Throw e) \/
  exists path options baseUrl,
    performed (run penv c) = [(baseUrl ++ path, built_init JSON_stringify options)] /\
    resolveBaseUrl penv (target c).1 (target c).2 = Ok baseUrl /\
    outcome (run penv c) =
      match transport (baseUrl ++ path) (built_init JSON_stringify options) with
      | Throw e => Throw e
      | Ok res =>
          match res_text res with
          | Throw e => Throw e
          | Ok text =>
              Ok (format (mkResult (baseUrl ++ path) (res_status res)
                            (body_data JSON_parse text)))
          end
      end /\
    default [] (headers options) = option_list (credential c) /\
    exists m p rest,
      documented_endpoint (tool_name c) = Some (m, p) /\
      method options = Some m /\ path = p ++ rest /\
      (rest = "" \/ exists environment baseUrl payrollId,
                      c = call_payroll_get_by_id environment baseUrl payrollId /\
                      encodeURIComponent payrollId = Ok rest) /\
      (m = "GET" /\ body options = JUndefined \/ m = "POST" /\ body options <> JUndefined).
Proof.
  destruct (run_tool_cases c)
    as [(e & env & base & id & -> & Hid & He)|(path & options & Hrun & Htarget & Hrest)].
  { left. exists e, env, base, id. unfold performed, outcome. rewrite He.
    repeat split; auto. }
  right. unfold performed, outcome. rewrite !Hrun.
  unfold mbind, IO_bind. rewrite snowrailFetch_run.
  rewrite <- Htarget. cbn [fst snd].
  destruct (resolveBaseUrl _ _ _) as [baseUrl|e].
  2:{ left. exists e. repeat split; reflexivity. }
  right. exists path, options, baseUrl.
  split; [|split; [reflexivity|split; [|exact Hrest]]].
  - cbn. destruct (transport _ _) as [res|?]; [|reflexivity].
    destruct (res_text res); reflexivity.
  - cbn. destruct (transport _ _) as [res|?]; [|reflexivity].
    destruct (res_text res); reflexivity.
Qed.

Lemma built_init_method options m :
  method options = Some m -> init_method (built_init JSON_stringify options) = m.
Proof. intros H. cbn. rewrite H. reflexivity. Qed.

Lemma built_init_body options m :
  method options = Some m ->
  m = "GET" /\ body options = JUndefined \/ m = "POST" /\ body options <> JUndefined ->
  m = "GET" /\ init_body (built_init JSON_stringify options) = None \/
  m = "POST" /\
  init_body (built_init JSON_stringify options) = Some (JSON_stringify (body options) 0%nat).
Proof.
  intros Hm [[-> Hbody]|[-> Hbody]]; cbn; rewrite Hm; cbn.
  - left. split; [reflexivity|]. rewrite andb_false_r. reflexivity.
  - right. split; [reflexivity|].
    destruct (body options); cbn; first [reflexivity|contradiction].
Qed.

Lemma credential_after_content_type c :
  spread [("Content-Type", "application/json")] (option_list (credential c))
  = ("Content-Type", "application/json") :: option_list (credential c).
Proof.
  destruct c; cbn; try reflexivity.
  destruct (if_truthy _); reflexivity.
Qed.


(** X10: a request with the method GET carries no body, one with the method
    POST always carries one, and no tool uses another method. *)
Theorem tool_body_iff_post penv c request :
  request ∈ performed (run penv c) ->
  init_method request.2 = "GET" /\ init_body request.2 = None \/
  init_method request.2 = "POST" /\ is_Some (init_body request.2).
Proof.
  destruct (run_tool_run penv c)
    as [(? & ? & ? & ? & _ & _ & -> & _)|[(? & _ & -> & _)|
        (path & options & baseUrl & -> & _ & _ & _ & m & p & rest & _ & Hm & _ & _ & Hbody)]];
    [intros H; inversion H|intros H; inversion H|].
  intros ->%list_elem_of_singleton. cbn [snd].
  rewrite (built_init_method _ _ Hm).
  destruct (built_init_body _ _ Hm Hbody) as [[-> ->]|[-> ->]]; [left|right]; eauto.
Qed.

(** X11: the headers of a request are [Content-Type: application/json] followed
    by the credential of the caller, as given, when the tool takes one;
    there is no other header. *)
Theorem tool_headers penv c request :
  request ∈ performed (run penv c) ->
  init_headers request.2
  = ("Content-Type", "application/json") :: option_list (credential c).
Proof.
  destruct (run_tool_run penv c)
    as [(? & ? & ? & ? & _ & _ & -> & _)|[(? & _ & -> & _)|
        (path & options & baseUrl & -> & _ & _ & Hheaders & _)]];
    [intros H; inversion H|intros H; inversion H|].
  intros ->%list_elem_of_singleton. cbn [snd built_init init_headers].
  rewrite Hheaders. apply credential_after_content_type.
Qed.

(** X12: a tool call performs at most one request, and a result it returns is
    the formatted triple of the URL requested, the status of the response
    and the data of its body. *)
Theorem tool_result_envelope penv c :
  (length (performed (run penv c)) <= 1)%nat /\
  forall result,
    outcome (run penv c) = Ok result ->
    exists url init res text,
      performed (run penv c) = [(url, init)] /\
      transport url init = Ok res /\ res_text res = Ok text /\
      content result =
        [ mkBlock "text"
            (JSON_stringify
               (FetchResult_value
                  (mkResult url (res_status res) (body_data JSON_parse text))) 2) ].
Proof.
  destruct (run_tool_run penv c)
    as [(? & ? & ? & ? & _ & _ & -> & ->)|[(? & _ & -> & ->)|
        (path & options & baseUrl & -> & _ & -> & _)]];
    (split; [cbn; lia|]); try discriminate.
  intros result.
  destruct (transport _ _) as [res|] eqn:Hres; [|discriminate].
  destruct (res_text res) as [text|] eqn:Htext; [|discriminate].
  intros [= <-]. eexists _, _, res, text. repeat split; eauto.
Qed.

(** X13: a tool call fails in three ways only: the identifier of a payroll is
    malformed, the base URL does not resolve (both before any request), or
    the network fails; it never fails on what the backend answers. *)
Theorem tool_failures penv c e :
  outcome (run penv c) = Throw e ->
  (performed (run penv c) = [] /\
   ((exists environment baseUrl payrollId,
        c = call_payroll_get_by_id environment baseUrl payrollId /\
        encodeURIComponent payrollId = Throw e) \/
    resolveBaseUrl penv (target c).1 (target c).2 = Throw e)) \/
  exists url init,
    performed (run penv c) = [(url, init)] /\
    (transport url init = Throw e \/
     exists res, transport url init = Ok res /\ res_text res = Throw e).
Proof.
  destruct (run_tool_run penv c)
    as [(e' & env & base & id & -> & Hid & -> & ->)|[(e' & Hbase & -> & ->)|
        (path & options & baseUrl & -> & _ & -> & _)]].
  - intros [= ->]. left. split; [reflexivity|]. left. eauto.
  - intros [= ->]. left. split; [reflexivity|]. right. exact Hbase.
  - intros He. right. eexists _, _. split; [reflexivity|].
    destruct (transport _ _) as [res|e'] eqn:Hres.
    + destruct (res_text res) as [text|e''] eqn:Htext; [discriminate|].
      injection He as ->. right. eauto.
    + injection He as ->. left. reflexivity.
Qed.

(** X14: what a tool sends besides the base URL does not depend on the
    process variables: method, headers and body are the same in any two
    processes, and each URL is the base URL that the call's arguments resolve
    to in its process, followed by one and the same path. *)
Theorem tool_requests_ignore_process_env penv1 penv2 c request1 request2 :
  request1 ∈ performed (run penv1 c) ->
  request2 ∈ performed (run penv2 c) ->
  request1.2 = request2.2 /\
  exists base1 base2 path,
    resolveBaseUrl penv1 (target c).1 (target c).2 = Ok base1 /\
    resolveBaseUrl penv2 (target c).1 (target c).2 = Ok base2 /\
    request1.1 = base1 ++ path /\ request2.1 = base2 ++ path.
Proof.
  destruct (run_tool_cases c)
    as [(e & env & base & id & -> & Hid & He)|(path & options & Hrun & Htarget & _)].
  { unfold performed. rewrite He. intros H; inversion H. }
  rewrite <- Htarget. cbn [fst snd].
  unfold performed. rewrite !Hrun. unfold mbind, IO_bind. rewrite !snowrailFetch_run.
  destruct (resolveBaseUrl penv1 _ _) as [base1|]; [|intros H; inversion H].
  destruct (resolveBaseUrl penv2 _ _) as [base2|]; [|intros _ H; inversion H].
  cbn.
  destruct (transport (base1 ++ path) _) as [r1|]; [destruct (res_text r1)|];
    (destruct (transport (base2 ++ path) _) as [r2|]; [destruct (res_text r2)|]);
    cbn; intros ->%list_elem_of_singleton ->%list_elem_of_singleton;
    (split; [reflexivity|]; exists base1, base2, path; repeat split; reflexivity).
Qed.

(** X17: the message of the agent-to-agent tool has the fields [type] and
    [payload], followed by [agent] only for an [agentId] that is supplied
    and not empty; the agent has the field [id], followed by [name] only
    for an [agentName] that is supplied and not empty.  No other field
    exists, so a name given without an identifier is sent nowhere. *)
Theorem a2a_agent_attached penv args baseUrl :
  resolveBaseUrl penv (a2a_environment args) (a2a_baseUrl args) = Ok baseUrl ->
  exists message init,
    performed (snowrail_process_a2a JSON_parse JSON_stringify transport penv args)
      = [(baseUrl ++ "/process", init)] /\
    init_body init = Some (JSON_stringify (JObject [("message", JObject message)]) 0%nat) /\
    prop_get "type" message = Some (JString (a2a_messageType args)) /\
    prop_get "payload" message
      = Some (try_catch (JSON_parse (a2a_messagePayload args))
                        (JString (a2a_messagePayload args))) /\
    match if_truthy (a2a_agentId args) with
    | None => map fst message = ["type"; "payload"]
    | Some agentId =>
        map fst message = ["type"; "payload"; "agent"] /\
        prop_get "agent" message =
          Some (JObject (("id", JString agentId)
                         :: match if_truthy (a2a_agentName args) with
                            | Some agentName => [("name", JString agentName)]
                            | None => []
                            end))
    end.
Proof.
  intros Hbase. unfold snowrail_process_a2a.
  rewrite performed_then_format, snowrailFetch_performed. cbn. rewrite Hbase.
  destruct (if_truthy (a2a_agentId args)) as [agentId|]; cbn.
  - eexists _, _. split; [reflexivity|]. split; [reflexivity|].
    split; [reflexivity|]. split; [reflexivity|]. split; [reflexivity|].
    destruct (if_truthy (a2a_agentName args)); reflexivity.
  - eexists _, _. split; [reflexivity|]. split; [reflexivity|].
    split; [reflexivity|]. split; reflexivity.
Qed.

(** X18: the callback tool: the body always carries the four required fields,
    and [timestamp] only when one is supplied and not empty. *)
Theorem callback_timestamp_optional penv environment baseUrl secret
    paymentIntentId token amount txHash timestamp base :
  resolveBaseUrl penv environment baseUrl = Ok base ->
  exists body init,
    performed (snowrail_x402_callback JSON_parse JSON_stringify transport penv
                 environment baseUrl secret paymentIntentId token amount txHash timestamp)
      = [(base ++ "/internal/x402/callback", init)] /\
    init_body init = Some (JSON_stringify (JObject body) 0%nat) /\
    map fst body =
      (["paymentIntentId"; "token"; "amount"; "txHash"]
        ++ match if_truthy timestamp with
           | Some _ => ["timestamp"]
           | None => []
           end)%list /\
    prop_get "timestamp" body = JString <$> if_truthy timestamp /\
    prop_get "X-Callback-Secret" (init_headers init) = if_truthy secret.
Proof.
  intros Hbase. unfold snowrail_x402_callback.
  rewrite performed_then_format, snowrailFetch_performed. cbn. rewrite Hbase.
  eexists _, _. split; [reflexivity|]. split; [reflexivity|].
  destruct (if_truthy timestamp), (if_truthy secret); cbn; repeat split; reflexivity.
Qed.

(** X19: the payment body names the recipient and the currency consistently:
    the recipient in [recipient], [customer.email_address] and
    [payment.recipient], the currency at both levels; the amount as given
    stands beside the amount in minor units, the telephone number is left
    out when none is supplied, and the description defaults only when it
    is not supplied at all. *)
Theorem payment_body_consistent penv args baseUrl :
  resolveBaseUrl penv (pay_environment args) (pay_baseUrl args) = Ok baseUrl ->
  exists body init,
    performed (snowrail_payment_process JSON_parse JSON_stringify transport penv args)
      = [(baseUrl ++ "/api/payment/process", init)] /\
    init_body init = Some (JSON_stringify body 0%nat) /\
    field "recipient" body = JString (pay_recipientEmail args) /\
    field "email_address" (field "customer" body) = field "recipient" body /\
    field "recipient" (field "payment" body) = field "recipient" body /\
    field "currency" (field "payment" body) = field "currency" body /\
    field "amount" body = JNumber (pay_amount args) /\
    field "telephone_number" (field "customer" body) = opt_value (pay_telephone args) /\
    field "description" (field "payment" body)
      = JString (default "SnowRail MCP payment" (pay_description args)).
Proof.
  intros Hbase. unfold snowrail_payment_process.
  rewrite performed_then_format, snowrailFetch_performed. cbn. rewrite Hbase.
  eexists _, _. repeat split; reflexivity.
Qed.

Lemma dispatch_spec server penv c :
  (tool_name c ∈ tool_names server ->
   dispatch JSON_parse JSON_stringify transport server penv c = Some (run penv c)) /\
  (tool_name c ∉ tool_names server ->
   dispatch JSON_parse JSON_stringify transport server penv c = None /\
   requests_of JSON_parse JSON_stringify transport server penv c = []).
Proof.
  unfold requests_of, dispatch, tool_names.
  destruct (bool_decide_reflect (tool_name c ∈ registeredTools server)) as [Hin|Hout].
  - split; [reflexivity|]. intros Hno. exfalso. apply Hno.
    apply elem_of_list_to_set. exact Hin.
  - split; [|split; reflexivity]. intros Hyes. exfalso.
    apply elem_of_list_to_set in Hyes. exact (Hout Hyes).
Qed.

(** X8: the mode gate at the level of invocations: a core tool finds its
    handler in every mode; an internal tool finds none, and causes no
    request, unless the mode is internal, and an advanced tool finds none
    unless the mode is advanced or internal. *)
Theorem mode_gate_on_invocations penv server c :
  startup penv = Ok server ->
  (tool_name c ∈ core_tier ->
   dispatch JSON_parse JSON_stringify transport server penv c = Some (run penv c)) /\
  (SNOWRAIL_MCP_MODE penv <> Some "internal" ->
   tool_name c ∈ internal_tier \/
   SNOWRAIL_MCP_MODE penv <> Some "advanced" /\ tool_name c ∈ advanced_tier ->
   dispatch JSON_parse JSON_stringify transport server penv c = None /\
   requests_of JSON_parse JSON_stringify transport server penv c = []).
Proof.
  intros Hstart.
  destruct (startup_by_flags penv) as (server' & Hstart' & Hnames).
  rewrite Hstart in Hstart'. injection Hstart' as <-.
  assert (Hci : core_tier ## internal_tier) by decide_closed.
  assert (Hca : core_tier ## advanced_tier) by decide_closed.
  assert (Hai : advanced_tier ## internal_tier) by decide_closed.
  rewrite elem_of_disjoint in Hci, Hca, Hai.
  split.
  - intros Hcore. apply dispatch_spec. rewrite Hnames.
    apply elem_of_union_l, elem_of_union_l, Hcore.
  - intros Hnot_internal Htier. apply dispatch_spec. rewrite Hnames.
    rewrite (mode_not_internal penv Hnot_internal).
    rewrite !elem_of_union, elem_of_empty.
    destruct Htier as [Hint|[Hnot_advanced Hadv]].
    + intros [[Hcore|Hin]|[]]; [exact (Hci _ Hcore Hint)|].
      destruct (isAdvanced penv); [exact (Hai _ Hin Hint)|].
      apply elem_of_empty in Hin. exact Hin.
    + destruct (mode_gate_closed penv Hnot_advanced Hnot_internal) as [-> _].
      intros [[Hcore|Hin]|[]]; [exact (Hca _ Hcore Hadv)|].
      apply elem_of_empty in Hin. exact Hin.
Qed.

Lemma performed_after_lift {A B} (a : A) (k : A -> IO B) :
  performed (x ← lift (Ok a); k x) = performed (k a).
Proof. reflexivity. Qed.

Lemma payroll_request penv environment baseUrl payrollId request :
  request ∈ performed (run penv (call_payroll_get_by_id environment baseUrl payrollId)) ->
  exists base segment,
    encodeURIComponent payrollId = Ok segment /\
    resolveBaseUrl penv environment baseUrl = Ok base /\
    request.1 = base ++ "/api/payroll/" ++ segment.
Proof.
  cbn [run_tool]. unfold snowrail_payroll_get_by_id.
  destruct (encodeURIComponent payrollId) as [segment|e] eqn:Hid.
  - rewrite performed_after_lift, performed_then_format, snowrailFetch_performed. cbn.
    destruct (resolveBaseUrl penv environment baseUrl) as [base|]; [|intros H; inversion H].
    intros ->%list_elem_of_singleton. exists base, segment. auto.
  - intros H. inversion H.
Qed.

(** X15: the tool that looks a payroll up requests
    [/api/payroll/] followed by one segment: the encoded identifier holds
    no [/], [?] or [#], whatever the identifier, and is the identifier
    itself when that is made of unreserved characters. *)
Theorem payroll_path_is_one_segment penv environment baseUrl payrollId request :
  request ∈ performed (run penv (call_payroll_get_by_id environment baseUrl payrollId)) ->
  exists base segment,
    encodeURIComponent payrollId = Ok segment /\
    resolveBaseUrl penv environment baseUrl = Ok base /\
    request.1 = base ++ "/api/payroll/" ++ segment /\
    all_chars (fun c => negb (path_delimiter c)) segment = true /\
    (all_chars unreserved payrollId = true -> segment = payrollId).
Proof.
  intros Hin. destruct (payroll_request _ _ _ _ _ Hin) as (base & segment & Hid & Hbase & Hurl).
  exists base, segment. split; [exact Hid|]. split; [exact Hbase|]. split; [exact Hurl|].
  split.
  - apply (all_chars_weaken _ _ _ plain_or_percent_is_no_delimiter), (encoded_chars _ _ Hid).
  - intros Hplain. apply encoded_plain in Hplain. congruence.
Qed.

(** X16: two identifiers never lead to the same URL: on one base URL,
    requests of the lookup tool with equal URLs come from equal
    identifiers. *)
Theorem payroll_paths_distinct penv environment baseUrl id1 id2 request1 request2 :
  request1 ∈ performed (run penv (call_payroll_get_by_id environment baseUrl id1)) ->
  request2 ∈ performed (run penv (call_payroll_get_by_id environment baseUrl id2)) ->
  request1.1 = request2.1 ->
  id1 = id2.
Proof.
  intros Hin1 Hin2 Hurl.
  destruct (payroll_request _ _ _ _ _ Hin1) as (base1 & segment1 & Hid1 & Hbase1 & Hurl1).
  destruct (payroll_request _ _ _ _ _ Hin2) as (base2 & segment2 & Hid2 & Hbase2 & Hurl2).
  rewrite Hbase1 in Hbase2. injection Hbase2 as <-.
  rewrite Hurl1, Hurl2 in Hurl.
  apply append_cancel, append_cancel in Hurl. subst segment2.
  exact (encoded_injective _ _ _ Hid1 Hid2).
Qed.

End ToolProperties.

(** X7: registration succeeds for every value of the mode variable: no name is
    registered twice, the core tier is always there, nothing outside the
    three tiers is, and every registered name has a documented endpoint. *)
Theorem registration_always_succeeds penv :
  exists server,
    startup penv = Ok server /\
    NoDup (registeredTools server) /\
    core_tier ⊆ tool_names server /\
    tool_names server ⊆ core_tier ∪ advanced_tier ∪ internal_tier /\
    Forall (fun name => is_Some (documented_endpoint name)) (registeredTools server).
Proof.
  unfold startup, register_tools.
  destruct (isAdvanced penv), (isInternal penv);
    (eexists; split; [reflexivity|]; repeat split; decide_closed).
Qed.

(** ** The further properties at concrete inputs *)

Abbreviation run_on answer := (run_tool JSON.parse stringify_defined (answering answer)).

Lemma resolved_url_not_empty_witness :
  resolveBaseUrl unset None None = Ok "https://staging-api.snowrail.xyz" /\
  "https://staging-api.snowrail.xyz" <> "".
Proof.
  split; [reflexivity|].
  apply (resolved_url_not_empty unset None None). reflexivity.
Defined.

Lemma api_base_is_only_a_fallback_witness :
  resolveBaseUrl (mkEnv None None (Some "http://localhost:3000")) None None
    = Ok "https://staging-api.snowrail.xyz" /\
  resolveBaseUrl (mkEnv None (Some "qa") (Some "http://localhost:3000")) None None
    = Ok "http://localhost:3000".
Proof.
  split.
  - rewrite (proj1 (api_base_is_only_a_fallback None None (Some "http://localhost:3000")
                      None None)); [reflexivity|decide_closed].
  - apply (proj2 (api_base_is_only_a_fallback None (Some "qa")
                    (Some "http://localhost:3000") None None));
      [reflexivity|discriminate|reflexivity|decide_closed].
Defined.

Lemma validated_calls_resolve_witness :
  exists url,
    resolveBaseUrl (mkEnv None (Some "production") None) (Some "development") None = Ok url.
Proof.
  apply validated_calls_resolve; decide_closed.
Defined.

Lemma mode_gate_on_invocations_witness :
  exists server,
    startup unset = Ok server /\
    dispatch JSON.parse stringify_defined (answering no_content) server unset
      (call_auth_login None None "ada@example.com" "correct horse") = None /\
    requests_of JSON.parse stringify_defined (answering no_content) server unset
      (call_auth_login None None "ada@example.com" "correct horse") = [].
Proof.
  eexists. split; [reflexivity|].
  apply (mode_gate_on_invocations JSON.parse stringify_defined (answering no_content) unset);
    [reflexivity|discriminate|left; decide_closed].
Defined.


Lemma tool_body_iff_post_witness :
  let call := call_payroll_execute None None "demo-token" in
  let request :=
    ("https://staging-api.snowrail.xyz/api/payroll/execute",
     mkInit "POST" [("Content-Type", "application/json"); ("X-PAYMENT", "demo-token")]
       (Some "{}")) in
  request ∈ performed (run_on no_content unset call) /\
  (init_method request.2 = "GET" /\ init_body request.2 = None \/
   init_method request.2 = "POST" /\ is_Some (init_body request.2)).
Proof.
  intros call request.
  assert (Hin : request ∈ performed (run_on no_content unset call))
    by apply list_elem_of_here.
  split; [exact Hin|].
  exact (tool_body_iff_post JSON.parse stringify_defined (answering no_content)
           unset call request Hin).
Defined.

Lemma tool_headers_witness :
  let call := call_auth_me None None "jwt" in
  let request :=
    ("https://staging-api.snowrail.xyz/auth/me",
     mkInit "GET" [("Content-Type", "application/json"); ("Authorization", "Bearer jwt")]
       None) in
  request ∈ performed (run_on no_content unset call) /\
  init_headers request.2
  = [("Content-Type", "application/json"); ("Authorization", "Bearer jwt")].
Proof.
  intros call request.
  assert (Hin : request ∈ performed (run_on no_content unset call))
    by apply list_elem_of_here.
  split; [exact Hin|].
  exact (tool_headers JSON.parse stringify_defined (answering no_content)
           unset call request Hin).
Defined.

Lemma tool_result_envelope_witness :
  let call := call_treasury_balance None None in
  exists result url init res text,
    outcome (run_on backend_error unset call) = Ok result /\
    performed (run_on backend_error unset call) = [(url, init)] /\
    answering backend_error url init = Ok res /\ res_text res = Ok text /\
    res_status res = 500 /\
    content result =
      [ mkBlock "text"
          (stringify_defined
             (FetchResult_value
                (mkResult url (res_status res) (body_data JSON.parse text))) 2) ].
Proof.
  intros call.
  destruct (proj2 (tool_result_envelope JSON.parse stringify_defined
                     (answering backend_error) unset call) _ eq_refl)
    as (url & init & res & text & Hsent & Hres & Htext & Hcontent).
  eexists _, url, init, res, text.
  split; [reflexivity|]. split; [exact Hsent|]. split; [exact Hres|].
  split; [exact Htext|]. split; [|exact Hcontent].
  injection Hres as <-. reflexivity.
Defined.

Lemma tool_failures_witness :
  let call := call_health None None in
  outcome (run_on unreachable unset call) = Throw (TypeError "fetch failed") /\
  ((performed (run_on unreachable unset call) = [] /\
    ((exists environment baseUrl payrollId,
         call = call_payroll_get_by_id environment baseUrl payrollId /\
         encodeURIComponent payrollId = Throw (TypeError "fetch failed")) \/
     resolveBaseUrl unset (target call).1 (target call).2
       = Throw (TypeError "fetch failed"))) \/
   exists url init,
     performed (run_on unreachable unset call) = [(url, init)] /\
     (answering unreachable url init = Throw (TypeError "fetch failed") \/
      exists res, answering unreachable url init = Ok res /\
                  res_text res = Throw (TypeError "fetch failed"))).
Proof.
  intros call. split; [reflexivity|].
  exact (tool_failures JSON.parse stringify_defined (answering unreachable) unset call
           (TypeError "fetch failed") eq_refl).
Defined.

Lemma tool_requests_ignore_process_env_witness :
  let production := mkEnv (Some "internal") (Some "production") (Some "http://other") in
  let init :=
    mkInit "POST" [("Content-Type", "application/json"); ("X-PAYMENT", "demo-token")]
      (Some "{}") in
  let request1 := ("https://staging-api.snowrail.xyz/api/treasury/test", init) in
  let request2 := ("https://api.snowrail.xyz/api/treasury/test", init) in
  let call := call_treasury_test None None "demo-token" in
  request1 ∈ performed (run_on no_content unset call) /\
  request2 ∈ performed (run_on no_content production call) /\
  request1.2 = request2.2 /\
  exists base1 base2 path,
    resolveBaseUrl unset (target call).1 (target call).2 = Ok base1 /\
    resolveBaseUrl production (target call).1 (target call).2 = Ok base2 /\
    request1.1 = base1 ++ path /\ request2.1 = base2 ++ path.
Proof.
  intros production init request1 request2 call.
  assert (Hin1 : request1 ∈ performed (run_on no_content unset call))
    by apply list_elem_of_here.
  assert (Hin2 : request2 ∈ performed (run_on no_content production call))
    by apply list_elem_of_here.
  split; [exact Hin1|]. split; [exact Hin2|].
  exact (tool_requests_ignore_process_env JSON.parse stringify_defined
           (answering no_content) unset production call request1 request2 Hin1 Hin2).
Defined.

Lemma payroll_path_is_one_segment_witness :
  let request :=
    ("https://staging-api.snowrail.xyz/api/payroll/..%2Fadmin%3Fx%3D1",
     mkInit "GET" [("Content-Type", "application/json")] None) in
  request ∈ performed (run_on no_content unset sample_lookup) /\
  exists base segment,
    encodeURIComponent "../admin?x=1" = Ok segment /\
    resolveBaseUrl unset None None = Ok base /\
    request.1 = base ++ "/api/payroll/" ++ segment /\
    all_chars (fun c => negb (path_delimiter c)) segment = true /\
    (all_chars unreserved "../admin?x=1" = true -> segment = "../admin?x=1").
Proof.
  intros request.
  assert (Hin : request ∈ performed (run_on no_content unset sample_lookup))
    by apply list_elem_of_here.
  split; [exact Hin|].
  exact (payroll_path_is_one_segment JSON.parse stringify_defined (answering no_content)
           unset None None "../admin?x=1" request Hin).
Defined.

Lemma payroll_paths_distinct_witness :
  let request :=
    ("https://staging-api.snowrail.xyz/api/payroll/pay_1",
     mkInit "GET" [("Content-Type", "application/json")] None) in
  request ∈ performed (run_on no_content unset (call_payroll_get_by_id None None "pay_1")) /\
  "pay_1" = "pay_1".
Proof.
  intros request.
  assert (Hin : request ∈ performed
            (run_on no_content unset (call_payroll_get_by_id None None "pay_1")))
    by apply list_elem_of_here.
  split; [exact Hin|].
  exact (payroll_paths_distinct JSON.parse stringify_defined (answering no_content)
           unset None None "pay_1" "pay_1" request request Hin Hin eq_refl).
Defined.

Lemma a2a_agent_attached_witness :
  exists message init,
    performed (snowrail_process_a2a JSON.parse stringify_defined (answering no_content)
                 unset sample_message)
      = [("https://staging-api.snowrail.xyz/process", init)] /\
    init_body init = Some (stringify_defined (JObject [("message", JObject message)]) 0%nat) /\
    map fst message = ["type"; "payload"; "agent"] /\
    prop_get "agent" message
      = Some (JObject [("id", JString "agent-7"); ("name", JString "Bot")]).
Proof.
  destruct (a2a_agent_attached JSON.parse stringify_defined (answering no_content)
              unset sample_message "https://staging-api.snowrail.xyz" eq_refl)
    as (message & init & Hsent & Hbody & _ & _ & Hagent).
  exists message, init. split; [exact Hsent|]. split; [exact Hbody|].
  exact Hagent.
Defined.

Lemma callback_timestamp_optional_witness :
  exists body init,
    performed (run_on no_content unset sample_callback)
      = [("http://localhost:4000/internal/x402/callback", init)] /\
    init_body init = Some (stringify_defined (JObject body) 0%nat) /\
    map fst body = ["paymentIntentId"; "token"; "amount"; "txHash"] /\
    prop_get "timestamp" body = None /\
    prop_get "X-Callback-Secret" (init_headers init) = Some "s3cret".
Proof.
  exact (callback_timestamp_optional JSON.parse stringify_defined (answering no_content)
           unset (Some "development") None (Some "s3cret") "pi_1" "tok_1" "10.00" "0xabc"
           None "http://localhost:4000" eq_refl).
Defined.

Lemma payment_body_consistent_witness :
  exists body init,
    performed (snowrail_payment_process JSON.parse stringify_defined (answering no_content)
                 unset sample_payment)
      = [("https://staging-api.snowrail.xyz/api/payment/process", init)] /\
    init_body init = Some (stringify_defined body 0%nat) /\
    field "email_address" (field "customer" body) = JString "ada@example.com" /\
    field "recipient" (field "payment" body) = JString "ada@example.com" /\
    field "telephone_number" (field "customer" body) = JUndefined /\
    field "description" (field "payment" body) = JString "SnowRail MCP payment".
Proof.
  destruct (payment_body_consistent JSON.parse stringify_defined (answering no_content)
              unset sample_payment "https://staging-api.snowrail.xyz" eq_refl)
    as (body & init & Hsent & Hbody & Hrecipient & Hemail & Hpayee & _ & _ & Hphone & Hdesc).
  exists body, init. split; [exact Hsent|]. split; [exact Hbody|].
  split; [rewrite Hemail; exact Hrecipient|]. split; [rewrite Hpayee; exact Hrecipient|].
  split; [exact Hphone|exact Hdesc].
Defined.
